(** * hyperlearn2/base.py: memory guard and routine dispatch

    A shallow embedding of [hyperlearn2/base.py]: the memory estimator
    [memory], the argument classifier [arg_process], the decorator
    [process] with the wrapper it builds, and the [lapack] resolver.

    Python values are modelled by the inductive [value]; a call that
    raises returns [Raise] with the exception class and its message, a call
    that returns gives [Ok].  Python integers are [Z]. *)

From Stdlib Require Import ZArith List String Ascii Bool Lia.
From Stdlib Require Import DecimalString SpecFloat.
Import ListNotations.

Local Open Scope string_scope.
Local Open Scope list_scope.
Local Open Scope Z_scope.

Infix "+++" := String.append (right associativity, at level 60).

(** ** Exceptions and results *)

Inductive exn_class :=
| IndexError | NameError | TypeError | AssertionError | MemoryError
| KeyError | ValueError | AttributeError | StopIteration | OverflowError.

Inductive result (A : Type) :=
| Ok (a : A)
| Raise (c : exn_class) (msg : string).
Arguments Ok {A} a.
Arguments Raise {A} c msg.

Definition bind {A B} (r : result A) (k : A -> result B) : result B :=
  match r with
  | Ok a => k a
  | Raise c m => Raise c m
  end.

Notation "x <- r ;; k" := (bind r (fun x => k))
  (at level 61, r at next level, right associativity).
Notation "' p <- r ;; k" := (bind r (fun p => k))
  (at level 61, p pattern, r at next level, right associativity).

Definition exn_class_eqb (a b : exn_class) : bool :=
  match a, b with
  | IndexError, IndexError | NameError, NameError | TypeError, TypeError
  | AssertionError, AssertionError | MemoryError, MemoryError
  | KeyError, KeyError | ValueError, ValueError
  | AttributeError, AttributeError | StopIteration, StopIteration
  | OverflowError, OverflowError => true
  | _, _ => false
  end.

(** ** Text: [str] of integers and tuples, substring test *)

Definition str_Z (z : Z) : string := NilZero.string_of_int (Z.to_int z).

Fixpoint join (sep : string) (l : list string) : string :=
  match l with
  | [] => ""
  | [s] => s
  | s :: rest => s +++ sep +++ join sep rest
  end.

(** [str(shape)] of a tuple of integers: [(2, 3)], [(5,)], [()]. *)
Definition str_tuple (t : list Z) : string :=
  match t with
  | [k] => "(" +++ str_Z k +++ ",)"
  | _ => "(" +++ join ", " (map str_Z t) +++ ")"
  end.

Fixpoint contains (needle hay : string) : bool :=
  if prefix needle hay then true
  else match hay with
       | EmptyString => false
       | String _ rest => contains needle rest
       end.

(** ** numpy dtypes and values *)

(** The dtype's kind (numpy's [dtype.kind]: b, i, u, f, c, and m for
    timedelta64 with its unit; any other kind, O, S, U, V or M, carries the
    dtype's name), its [itemsize] in bytes, and its byte order. *)
Inductive dkind :=
| KBool | KInt | KUInt | KFloat | KComplex
| KTimedelta (unit : string)
| KOther (name : string).

(** The byte order of the items: the platform's own (numpy's [=], or [|]
    where it does not apply), or the other one, with the character numpy
    writes for it, [>] on a little-endian platform. *)
Inductive byteorder := Native | Swapped (c : ascii).

Record dtype := mk_dtype
  { kind : dkind; itemsize : Z; order : byteorder }.

(** The dtypes the module names, [np.float32] and the like, are in the
    platform's byte order. *)
Definition float16 := mk_dtype KFloat 2 Native.
Definition float32 := mk_dtype KFloat 4 Native.
Definition float64 := mk_dtype KFloat 8 Native.
Definition complex64 := mk_dtype KComplex 8 Native.
Definition complex128 := mk_dtype KComplex 16 Native.
Definition int32 := mk_dtype KInt 4 Native.
Definition int64 := mk_dtype KInt 8 Native.
Definition uint64 := mk_dtype KUInt 8 Native.
Definition bool_ := mk_dtype KBool 1 Native.

Definition dkind_eqb (a b : dkind) : bool :=
  match a, b with
  | KBool, KBool | KInt, KInt | KUInt, KUInt
  | KFloat, KFloat | KComplex, KComplex => true
  | KTimedelta s, KTimedelta t => String.eqb s t
  | KOther s, KOther t => String.eqb s t
  | _, _ => false
  end.

Definition byteorder_eqb (a b : byteorder) : bool :=
  match a, b with
  | Native, Native => true
  | Swapped c, Swapped d => Ascii.eqb c d
  | _, _ => false
  end.

(** [a == b] on dtypes: the same kind, item size and byte order. *)
Definition dtype_eqb (a b : dtype) : bool :=
  dkind_eqb (kind a) (kind b) && (itemsize a =? itemsize b)
  && byteorder_eqb (order a) (order b).

(** [np.issubdtype(dtype, np.integer)], which looks at the scalar type and
    not at the byte order; [np.timedelta64] is a subclass of
    [np.signedinteger].  [np.issubdtype(dtype, np.complexfloating)]. *)
Definition is_integer (d : dtype) : bool :=
  match kind d with KInt | KUInt | KTimedelta _ => true | _ => false end.
Definition is_complexfloating (d : dtype) : bool :=
  match kind d with KComplex => true | _ => false end.

(** [str(dtype)], as it appears in messages: the name for a dtype in the
    platform's byte order, the type string otherwise. *)
Definition str_unit (unit : string) : string :=
  if String.eqb unit "" then "" else "[" +++ unit +++ "]".

Definition str_dtype (d : dtype) : string :=
  match kind d, order d with
  | KOther name, _ => name
  | KBool, _ => "bool"
  | KInt, Native => "int" +++ str_Z (8 * itemsize d)
  | KUInt, Native => "uint" +++ str_Z (8 * itemsize d)
  | KFloat, Native => "float" +++ str_Z (8 * itemsize d)
  | KComplex, Native => "complex" +++ str_Z (8 * itemsize d)
  | KTimedelta unit, Native => "timedelta64" +++ str_unit unit
  | KInt, Swapped c => String c ("i" +++ str_Z (itemsize d))
  | KUInt, Swapped c => String c ("u" +++ str_Z (itemsize d))
  | KFloat, Swapped c => String c ("f" +++ str_Z (itemsize d))
  | KComplex, Swapped c => String c ("c" +++ str_Z (itemsize d))
  | KTimedelta unit, Swapped c =>
      String c ("m" +++ str_Z (itemsize d) +++ str_unit unit)
  end.

(** An array: its [shape], its [dtype], and, of its contents, only whether
    its element equals 1 (read for a one-element array by [== True]). *)
Record ndarray := mk_ndarray
  { a_shape : list Z; a_dtype : dtype; a_one : bool }.

Inductive value :=
| VNone
| VBool (b : bool)
| VInt (z : Z)
| VStr (s : string)
| VArray (a : ndarray)      (* type(x) == np.ndarray *)
| VMatrix (m : ndarray).    (* type(x) == np.matrix, always 2-D *)

Definition astype (a : ndarray) (d : dtype) : ndarray :=
  mk_ndarray (a_shape a) d (a_one a).

Definition a_size (a : ndarray) : Z := fold_right Z.mul 1 (a_shape a).

(** [x.A1 if x.shape[0] == 1 else x.A] on a matrix. *)
Definition matrix_to_array (m : ndarray) : ndarray :=
  if nth 0 (a_shape m) 0 =? 1
  then mk_ndarray [a_size m] (a_dtype m) (a_one m)
  else m.

(** [v == True] used as a condition. *)
Definition eq_True (v : value) : result bool :=
  match v with
  | VBool b => Ok b
  | VInt z => Ok (z =? 1)
  | VNone | VStr _ => Ok false
  | VArray a | VMatrix a =>
      if a_size a =? 1 then Ok (a_one a)
      else if a_size a =? 0 then Ok false
      else Raise ValueError
        "The truth value of an array with more than one element is ambiguous. Use a.any() or a.all()"
  end.

(** ** Module constants *)

(** Modelled from the spec: [_min] is imported from [hyperlearn2/numba.py],
    which is not part of the sources; the spec gives the [full] pattern as
    [n*p + min(n^2, p^2)]. *)
Definition _min (a b : Z) : Z := Z.min a b.

Definition usage := Z -> Z -> Z.

Definition usage_full : usage := fun n p => n * p + _min (n ^ 2) (p ^ 2).
Definition usage_same : usage := fun n p => n * p.
Definition usage_triu : usage := fun n p => if p <? n then p ^ 2 else n * p.
Definition usage_squared : usage := fun n p => n ^ 2.
Definition usage_columns : usage := fun n p => p.

(** The dict [memory_usage], by key. *)
Definition memory_usage (key : string) : option usage :=
  if String.eqb key "full" then Some usage_full
  else if String.eqb key "same" then Some usage_same
  else if String.eqb key "triu" then Some usage_triu
  else if String.eqb key "squared" then Some usage_squared
  else if String.eqb key "columns" then Some usage_columns
  else None.

Definition f_same_memory : usage := usage_same.

(** [np.dtype(dtype)]: [None] is numpy's default, float64. *)
Definition np_dtype (d : option dtype) : dtype :=
  match d with Some d => d | None => float64 end.

(** ** [memory] *)

Definition memory (shape : list Z) (dt : option dtype) (memcheck : option usage)
  : result Z :=
  match memcheck with
  | None => Ok 0
  | Some memcheck =>
      let byte := itemsize (np_dtype dt) in
      let shape := match shape with [k] => [1; k] | _ => shape end in
      match shape with
      | [n; p] =>
          let multiplier := memcheck n p in
          let need := Z.shiftr (multiplier * byte) 20 in
          Ok need
      | [] => Raise TypeError
                "<lambda>() missing 2 required positional arguments: 'n' and 'p'"
      | _ => Raise TypeError
               ("<lambda>() takes 2 positional arguments but "
                +++ str_Z (Z.of_nat (List.length shape)) +++ " were given")
      end
  end.

(** ** [arg_process] *)

(** Second component of [arg_process]'s result: [False], [None], or the
    dtype to convert to. *)
Inductive target :=
| NoConversion            (* False *)
| NoClassification        (* None *)
| ConvertTo (d : dtype).

Section Platform.

(** [_is64 = sys.maxsize > (1 << 32)]. *)
Variable _is64 : bool.

Definition maxFloat : dtype := if _is64 then float64 else float32.

Definition arg_process (x : value) (square : bool) : result (Z * target) :=
  match x with
  | VArray a =>
      let shape := a_shape a in
      if (1 <? Z.of_nat (List.length shape)) then
        _ <- (if square && negb (nth 0 shape 0 =? nth 1 shape 0)
              then Raise AssertionError
                     ("2D array is not square. Dimensions seen are "
                      +++ str_tuple shape +++ ".")
              else Ok tt) ;;
        let dtype := a_dtype a in
        if dtype_eqb dtype float32 || dtype_eqb dtype maxFloat
           || is_complexfloating dtype
        then Ok (0, NoConversion)
        else
          dt <- (if is_integer dtype
                 then Ok (if dtype_eqb dtype uint64 || dtype_eqb dtype int64
                          then maxFloat else float32)
                 else if dtype_eqb dtype float16 then Ok float32
                 else Raise TypeError
                        ("Data type of " +++ str_dtype dtype
                         +++ " is not a numerical type.")) ;;
          if negb (dtype_eqb dt dtype)
          then n <- memory shape (Some dt) (Some f_same_memory) ;;
               Ok (n, ConvertTo dt)
          else Ok (0, NoClassification)
      else Ok (0, NoClassification)
  | _ => Ok (0, NoClassification)
  end.

End Platform.

(** ** Keyword arguments

    [kwargs] is a Python dict: keys are unique and iteration follows
    insertion order, so it is an association list updated in place. *)

Definition kwargs := list (string * value).

Fixpoint kw_get (k : kwargs) (x : string) : option value :=
  match k with
  | [] => None
  | (y, v) :: rest => if String.eqb x y then Some v else kw_get rest x
  end.

(** [kwargs[x] = v]: an existing key keeps its place, a new one goes last. *)
Fixpoint kw_set (k : kwargs) (x : string) (v : value) : kwargs :=
  match k with
  | [] => [(x, v)]
  | (y, u) :: rest =>
      if String.eqb x y then (y, v) :: rest else (y, u) :: kw_set rest x v
  end.

(** [del kwargs[x]]. *)
Fixpoint kw_del (k : kwargs) (x : string) : kwargs :=
  match k with
  | [] => []
  | (y, u) :: rest =>
      if String.eqb x y then rest else (y, u) :: kw_del rest x
  end.

Definition is_bool (v : value) : bool :=
  match v with VBool _ => true | _ => false end.

(** A loop that assigns [kwargs[i] = g(kwargs[i])] for every key [i]. *)
Definition map_values (g : value -> value) (kw : kwargs) : kwargs :=
  map (fun '(i, t) => (i, g t)) kw.

(** Lines 164-166: a [bool] becomes [False]. *)
Definition set_False (t : value) : value :=
  if is_bool t then VBool false else t.

(** Lines 200-202: a matrix becomes its array. *)
Definition to_array (x : value) : value :=
  match x with VMatrix m => VArray (matrix_to_array m) | _ => x end.

(** [otherYes += t] for a value already known to be a [bool]. *)
Definition bool_to_Z (v : value) : Z :=
  match v with VBool true => 1 | _ => 0 end.

Definition len {A} (l : list A) : Z := Z.of_nat (List.length l).

(** ** The wrapped function *)

(** What the wrapper reads of [f]: the names in [signature(f).parameters],
    the text [str(signature(f))], and the function itself. *)
Record pyfun := mk_pyfun
  { parameters : list string;
    signature_str : string;
    call : list value -> kwargs -> result value }.

Definition has_parameter (f : pyfun) (x : string) : bool :=
  existsb (String.eqb x) (parameters f).

(** ** [process]: the [memcheck] argument *)

Inductive memcheck_arg :=
| McNone
| McStr (s : string)
| McDict (d : list (string * string)).

Fixpoint memcheck_dict (d : list (string * string))
  : result (list (string * usage)) :=
  match d with
  | [] => Ok []
  | (key, pattern) :: rest =>
      match memory_usage pattern with
      | Some u => rest' <- memcheck_dict rest ;; Ok ((key, u) :: rest')
      | None => Raise KeyError
                  ("Memory usage argument for " +++ key +++ " not recognised.")
      end
  end.

(** Lines 97-105: [None] stays [None], a string becomes [{"X": memcheck}],
    and every value of the dict is replaced by its lambda. *)
Definition memcheck_functions (m : memcheck_arg)
  : result (option (list (string * usage))) :=
  match m with
  | McNone => Ok None
  | McStr s => d <- memcheck_dict [("X", s)] ;; Ok (Some d)
  | McDict d => d' <- memcheck_dict d ;; Ok (Some d')
  end.

(** ** The memory budget *)

(** [MAX_MEMORY = 0.94], the binary64 number nearest to it. *)
Definition MAX_MEMORY : spec_float := S754_finite false 8466767299456532 (-53).

(** [float(z)] of a Python integer, rounded to nearest even. *)
Definition float_of_int (z : Z) : result spec_float :=
  match binary_normalize 53 1024 z 0 false with
  | S754_infinity _ => Raise OverflowError "int too large to convert to float"
  | x => Ok x
  end.

(** [int(x)] of a Python float: truncation toward zero. *)
Definition int_of_float (x : spec_float) : result Z :=
  match x with
  | S754_zero _ => Ok 0
  | S754_finite s m e =>
      let a := if 0 <=? e then Zpos m * 2 ^ e else Zpos m / 2 ^ (- e) in
      Ok (if s then - a else a)
  | S754_infinity _ =>
      Raise OverflowError "cannot convert float infinity to integer"
  | S754_nan => Raise ValueError "cannot convert float NaN to integer"
  end.

(** [int(available * MAX_MEMORY) >> 20]. *)
Definition free_MB (available : Z) : result Z :=
  a <- float_of_int available ;;
  i <- int_of_float (SFmul 53 1024 a MAX_MEMORY) ;;
  Ok (Z.shiftr i 20).

Definition shortfall_msg (need free : Z) : string :=
  "Operation requires " +++ str_Z need +++ " MB, but " +++ str_Z free
  +++ " MB is free, " +++ "so an extra " +++ str_Z (need - free)
  +++ " MB is required.".

Definition exhausted_msg : string :=
  "Operation requires more memory than what the system resources offer.".

(** The message of line 158-159: the first literal is not an f-string, so
    its braces are kept as written. *)
Definition name_error_msg (f : pyfun) : string :=
  "Argument '{x}' is not recognised in function. "
  +++ "Function accepted signature is " +++ signature_str f +++ ".".

Definition tuple_assign_msg : string :=
  "'tuple' object does not support item assignment".
Definition tuple_del_msg : string :=
  "'tuple' object doesn't support item deletion".

(** ** The wrapper built by [decorate] *)

Section Wrapper.

Variable _is64 : bool.

(** [virtual_memory().available], in bytes, at each successive sampling. *)
Variable available : nat -> Z.

(** The closure of [decorate]: the converted [memcheck] dict, [square], [f]. *)
Variable memcheck : list (string * usage).
Variable square : bool.
Variable f : pyfun.

Definition memory_length : Z := len memcheck.
Definition memory_keys : list string := map fst memcheck.
Definition function_signature : string := signature_str f.

(** Lines 116-138: argument counts and the first argument [X]. *)
Definition check_arguments (args : list value) (kw : kwargs) : result ndarray :=
  let no_args := len (parameters f) in
  let l := len args in
  let L := len kw in
  let size := l + L in
  if (size =? 0) || (l =? 0)
  then Raise IndexError "Function needs >= 1 function arguments."
  else if no_args <? size
  then Raise IndexError
         ("Function has too many inputs. Only " +++ str_Z no_args
          +++ " is needed.")
  else match args with
       | VMatrix _ :: _ => Raise TypeError tuple_assign_msg
       | VArray X :: _ => Ok X
       | _ => Raise IndexError
                "First argument is not a 2D array. Must be an array."
       end.

(** Lines 141-148: a positional [bool] is written to [kwargs] under the
    memory key of its position; [otherYes] and [duplicate] record it. *)
Fixpoint positional_booleans (i : nat) (args : list value)
    (kw : kwargs) (otherYes : Z) : result (kwargs * Z * list bool) :=
  match args with
  | [] => Ok (kw, otherYes, [])
  | x :: rest =>
      if is_bool x then
        match nth_error memory_keys i with
        | None => Raise IndexError "list index out of range"
        | Some key =>
            '(kw', yes, dup) <- positional_booleans (S i) rest
                                  (kw_set kw key x) (otherYes + bool_to_Z x) ;;
            Ok (kw', yes, true :: dup)
        end
      else
        '(kw', yes, dup) <- positional_booleans (S i) rest kw otherYes ;;
        Ok (kw', yes, false :: dup)
  end.

(** Lines 151-159: every keyword must be a parameter of [f]; boolean
    keywords are counted. [items] is the part of [kwargs] still to visit. *)
Fixpoint check_names (items : kwargs) (otherYes : Z) : result Z :=
  match items with
  | [] => Ok otherYes
  | (x, t) :: rest =>
      if has_parameter f x
      then check_names rest (if is_bool t then otherYes + bool_to_Z t
                             else otherYes)
      else Raise NameError (name_error_msg f)
  end.

(** The test of line 162. *)
Definition x_branch (otherYes : Z) : bool :=
  (otherYes =? memory_length - 1) || (otherYes =? 0).

(** Lines 162-169. *)
Definition update_X (kw : kwargs) (otherYes : Z) : kwargs :=
  if x_branch otherYes
  then kw_set (map_values set_False kw) "X" (VBool true)
  else kw_set kw "X" (VBool false).

(** Lines 172-176. *)
Fixpoint leftovers (keys : list string) (kw : kwargs) : kwargs :=
  match keys with
  | [] => kw
  | x :: rest =>
      match kw_get kw x with
      | Some _ => leftovers rest kw
      | None => leftovers rest (kw_set kw x (VBool false))
      end
  end.

(** Lines 141-176 together: the keyword map with its flags resolved, and
    [duplicate]. *)
Definition resolve_flags (args : list value) (kw : kwargs)
  : result (kwargs * list bool) :=
  '(kw1, yes1, duplicate) <- positional_booleans 0 args kw 0 ;;
  otherYes <- check_names kw1 yes1 ;;
  Ok (leftovers memory_keys (update_X kw1 otherYes), duplicate).

(** [otherYes] as line 162 reads it. *)
Definition otherYes_of (args : list value) (kw : kwargs) : result Z :=
  '(kw1, yes1, _) <- positional_booleans 0 args kw 0 ;;
  check_names kw1 yes1.

(** Lines 182-196: the positional arguments.  Returns [need], [new_dtypes]
    and [X_dtype] ([None] when the classifier answered [None] for [X]). *)
Fixpoint classify_args (i : nat) (args : list value)
    (need : Z) (X_dtype : option dtype)
  : result (Z * list target * option dtype) :=
  match args with
  | [] => Ok (need, [], X_dtype)
  | x :: rest =>
      _ <- (match i, x with
            | S _, VMatrix _ => Raise TypeError tuple_assign_msg
            | _, _ => Ok tt
            end) ;;
      '(n, dtype) <- arg_process _is64 x square ;;
      let '(X_dtype', dtype') :=
        match i with
        | O =>
            match dtype, x with
            | NoConversion, VArray a => (Some (a_dtype a), NoClassification)
            | ConvertTo d, _ => (Some d, dtype)
            | _, _ => (None, dtype)
            end
        | S _ => (X_dtype, dtype)
        end in
      '(need', new_dtypes, X_dtype'') <-
        classify_args (S i) rest (need + n) X_dtype' ;;
      Ok (need', dtype' :: new_dtypes, X_dtype'')
  end.

(** Lines 198-205: the keyword arguments; a matrix is replaced by its
    array.  [items] is the part of [kwargs] still to visit. *)
Fixpoint classify_kwargs (items : kwargs) (need : Z)
  : result (kwargs * Z * list target) :=
  match items with
  | [] => Ok ([], need, [])
  | (i, x) :: rest =>
      let x := to_array x in
      '(n, dtype) <- arg_process _is64 x square ;;
      '(rest', need', new_dtypes) <- classify_kwargs rest (need + n) ;;
      Ok ((i, x) :: rest', need', dtype :: new_dtypes)
  end.

(** Lines 209-213: the cost of the operation on [X], from the first memory
    key, in the order of declaration, whose flag is true. *)
Fixpoint operation_cost (items : list (string * usage)) (kw : kwargs)
    (shape : list Z) (X_dtype : option dtype) : result Z :=
  match items with
  | [] => Ok 0
  | (i, u) :: rest =>
      match kw_get kw i with
      | None => Raise KeyError i
      | Some v =>
          b <- eq_True v ;;
          if b then memory shape X_dtype (Some u)
          else operation_cost rest kw shape X_dtype
      end
  end.

(** What the wrapper holds when it reaches line 215. *)
Record accounted := mk_accounted
  { acc_args : list value;
    acc_kwargs : kwargs;
    acc_duplicate : list bool;
    acc_new_dtypes : list target;
    acc_need : Z }.

(** Lines 116-213. *)
Definition accounting (args : list value) (kw : kwargs) : result accounted :=
  X <- check_arguments args kw ;;
  '(kw1, duplicate) <- resolve_flags args kw ;;
  '(need1, dtypes1, X_dtype) <- classify_args 0 args 0 None ;;
  '(kw2, need2, dtypes2) <- classify_kwargs kw1 need1 ;;
  cost <- operation_cost memcheck kw2 (a_shape X) X_dtype ;;
  Ok (mk_accounted args kw2 duplicate (dtypes1 ++ dtypes2) (need2 + cost)).

(** Lines 216-220, with the number [w] of samplings made so far. *)
Definition admission (need : Z) (w : nat) : result unit * nat :=
  if 0 <? need then
    (free <- free_MB (available w) ;;
     if free <? need
     then Raise MemoryError (shortfall_msg need free)
     else Ok tt,
     S w)
  else (Ok tt, w).

(** Lines 224-228: [args] is a tuple, so the assignment to [args[i]] raises
    once [astype] has returned. *)
Fixpoint convert_args (args : list value) (new_dtypes : list target)
  : result (list value * list target) :=
  match args with
  | [] => Ok ([], new_dtypes)
  | x :: rest =>
      match new_dtypes with
      | [] => Raise IndexError "list index out of range"
      | NoClassification :: dtypes =>
          '(rest', dtypes') <- convert_args rest dtypes ;;
          Ok (x :: rest', dtypes')
      | NoConversion :: _ => Raise TypeError "data type not understood"
      | ConvertTo d :: _ =>
          match x with
          | VArray _ | VMatrix _ => Raise TypeError tuple_assign_msg
          | _ => Raise AttributeError "object has no attribute 'astype'"
          end
      end
  end.

(** Lines 229-233. *)
Fixpoint convert_kwargs (items : kwargs) (new_dtypes : list target)
  : result kwargs :=
  match items with
  | [] => Ok []
  | (i, x) :: rest =>
      match new_dtypes with
      | [] => Raise IndexError "list index out of range"
      | NoClassification :: dtypes =>
          rest' <- convert_kwargs rest dtypes ;; Ok ((i, x) :: rest')
      | NoConversion :: _ => Raise TypeError "data type not understood"
      | ConvertTo d :: dtypes =>
          match x with
          | VArray a | VMatrix a =>
              rest' <- convert_kwargs rest dtypes ;;
              Ok ((i, VArray (astype a d)) :: rest')
          | _ => Raise AttributeError "object has no attribute 'astype'"
          end
      end
  end.

(** Lines 236-241: deleting from the tuple [args] raises. *)
Definition clean_up (args : list value) (kw : kwargs) (duplicate : list bool)
  : result (list value * kwargs) :=
  if existsb (fun b => b) (tl duplicate)
  then Raise TypeError tuple_del_msg
  else Ok (args, kw_del kw "X").

(** Lines 222-241: the arguments [f] is called with. *)
Definition prepare (a : accounted) : result (list value * kwargs) :=
  '(args', dtypes) <- convert_args (acc_args a) (acc_new_dtypes a) ;;
  kw' <- convert_kwargs (acc_kwargs a) dtypes ;;
  clean_up args' kw' (acc_duplicate a).

(** Lines 244-248. *)
Definition delegate (args : list value) (kw : kwargs) : result value :=
  match call f args kw with
  | Raise MemoryError _ => Raise MemoryError exhausted_msg
  | r => r
  end.

Definition wrapper (args : list value) (kw : kwargs) (w : nat)
  : result value * nat :=
  match accounting args kw with
  | Raise c m => (Raise c m, w)
  | Ok a =>
      match admission (acc_need a) w with
      | (Raise c m, w') => (Raise c m, w')
      | (Ok _, w') => ('(args', kw') <- prepare a ;; delegate args' kw', w')
      end
  end.

End Wrapper.

(** A wrapper: from the arguments and the number of samplings made so far
    to the outcome and the new number of samplings. *)
Definition wrapper_fun : Type :=
  list value -> kwargs -> nat -> result value * nat.

(** [decorate]: [len(memcheck)] raises when [memcheck] is [None]. *)
Definition decorate (_is64 : bool) (available : nat -> Z)
    (memcheck : option (list (string * usage))) (square : bool) (f : pyfun)
  : result wrapper_fun :=
  match memcheck with
  | None => Raise TypeError "object of type 'NoneType' has no len()"
  | Some memcheck => Ok (wrapper _is64 available memcheck square f)
  end.

(** [process(f, memcheck, square)], or [process(memcheck, square)(f)]. *)
Definition process (_is64 : bool) (available : nat -> Z)
    (f : pyfun) (memcheck : memcheck_arg) (square : bool)
  : result wrapper_fun :=
  memcheck' <- memcheck_functions memcheck ;;
  decorate _is64 available memcheck' square f.

(** ** The [lapack] resolver *)

Module Lapack.

Definition routine : Type := list value -> kwargs -> result value.

(** [self.f]: [None], the name built at lines 290-296 before [eval] has
    replaced it, or the routine. *)
Inductive bound :=
| Unbound
| Name (s : string)
| Routine (r : routine).

Record lapack := mk_lapack
  { function : string; turbo : bool; f : bound }.

(** The default of [__init__]'s [turbo]. *)
Definition turbo_default : bool := true.

Section Modules.

(** The callables of the modules [_numba] and [_lapack], by attribute name:
    what [eval] of the dotted name gives, [None] when it raises. *)
Variable _numba : string -> option routine.
Variable _lapack : string -> option routine.

Definition __init__ (function : string) (numba : option string) (turbo : bool)
  : lapack :=
  let self := mk_lapack function turbo Unbound in
  match numba with
  | Some numba =>
      match _numba numba with
      | Some r => mk_lapack numba turbo (Routine r)
      | None => self
      end
  | None => self
  end.

(** [x.dtype]. *)
Definition dtype_of (x : value) : result dtype :=
  match x with
  | VArray a | VMatrix a => Ok (a_dtype a)
  | _ => Raise AttributeError "object has no attribute 'dtype'"
  end.

(** Lines 284-287. *)
Definition first_dtype (args : list value) (kw : kwargs) : result dtype :=
  match args with
  | x :: _ => dtype_of x
  | [] => match kw with
          | (_, x) :: _ => dtype_of x
          | [] => Raise StopIteration ""
          end
  end.

(** Lines 289-296: the name handed to [eval]. *)
Definition routine_name (self : lapack) (dtype : dtype) : string :=
  if dtype_eqb dtype float32 && turbo self then "s" +++ function self
  else if dtype_eqb dtype float64 || negb (turbo self) then "d" +++ function self
  else if dtype_eqb dtype complex64 then "c" +++ function self
  else "z" +++ function self.

(** [__call__]: the resolver after the call, and the call's result. *)
Definition __call__ (self : lapack) (args : list value) (kw : kwargs)
  : lapack * result value :=
  match f self with
  | Routine r => (self, r args kw)
  | Name _ => (self, Raise TypeError "'str' object is not callable")
  | Unbound =>
      match first_dtype args kw with
      | Raise c m => (self, Raise c m)
      | Ok dtype =>
          let name := routine_name self dtype in
          match _lapack name with
          | None =>
              (mk_lapack (function self) (turbo self) (Name ("_lapack." +++ name)),
               Raise AttributeError
                 ("module 'scipy.linalg.lapack' has no attribute '" +++ name
                  +++ "'"))
          | Some r =>
              (mk_lapack (function self) (turbo self) (Routine r), r args kw)
          end
      end
  end.

End Modules.

End Lapack.

(** ** The [blas] resolver *)

Module Blas.

Record blas := mk_blas { function : string; f : Lapack.bound }.

Section Modules.

(** The callables of the module [_blas], by attribute name. *)
Variable _blas : string -> option Lapack.routine.

Definition __init__ (function : string) : blas :=
  mk_blas function Lapack.Unbound.

(** Lines 325-332: the name handed to [eval]. *)
Definition routine_name (self : blas) (dtype : dtype) : string :=
  if dtype_eqb dtype float32 then "s" +++ function self
  else if dtype_eqb dtype float64 then "d" +++ function self
  else if dtype_eqb dtype complex64 then "c" +++ function self
  else "z" +++ function self.

(** [__call__]: the resolver after the call, and the call's result. *)
Definition __call__ (self : blas) (args : list value) (kw : kwargs)
  : blas * result value :=
  match f self with
  | Lapack.Routine r => (self, r args kw)
  | Lapack.Name _ => (self, Raise TypeError "'str' object is not callable")
  | Lapack.Unbound =>
      match Lapack.first_dtype args kw with
      | Raise c m => (self, Raise c m)
      | Ok dtype =>
          let name := routine_name self dtype in
          match _blas name with
          | None =>
              (mk_blas (function self) (Lapack.Name ("_blas." +++ name)),
               Raise AttributeError
                 ("module 'scipy.linalg.blas' has no attribute '" +++ name
                  +++ "'"))
          | Some r => (mk_blas (function self) (Lapack.Routine r), r args kw)
          end
      end
  end.

End Modules.

End Blas.

(** What line 232 leaves under a key: the array converted if a dtype was
    recorded for it, the value as it was otherwise. *)
Definition converted (x : value) (t : target) : value :=
  match t, x with
  | ConvertTo d, VArray a => VArray (astype a d)
  | _, _ => x
  end.

Definition int64_2x2 : ndarray := mk_ndarray [2; 2] int64 false.

(** [need] of a call, or the error of lines 116-213. *)
Definition need_of (r : result accounted) : result Z :=
  a <- r ;; Ok (acc_need a).

(** ** Keys of the keyword map *)

Definition keys (kw : kwargs) : list string := map fst kw.

(** ** Functions and arrays used in the examples *)

Definition first_argument : list value -> kwargs -> result value :=
  fun args _ => Ok (hd VNone args).

(** [def f(X)], [def f(X, k)], [def f(X, U)] and [def f(X, A, B, C)]. *)
Definition f_X : pyfun := mk_pyfun ["X"] "(X)" first_argument.
Definition f_X_k (body : list value -> kwargs -> result value) : pyfun :=
  mk_pyfun ["X"; "k"] "(X, k)" body.
Definition f_X_U : pyfun := mk_pyfun ["X"; "U"] "(X, U)" first_argument.

Definition float16_1000x1000 : ndarray := mk_ndarray [1000; 1000] float16 false.
Definition float32_2x2 : ndarray := mk_ndarray [2; 2] float32 false.

(** [available] when every sampling reports the same number of bytes. *)
Definition reports (bytes : Z) : nat -> Z := fun _ => bytes.

Definition MB : Z := 2 ^ 20.

Definition memcheck_X_full : list (string * usage) := [("X", usage_full)].
Definition memcheck_X_U : list (string * usage) :=
  [("X", usage_full); ("U", usage_same)].

(** A [_lapack] module that has [sgetrf] and [dgetrf] only. *)
Definition getrf_only : string -> option Lapack.routine :=
  fun name =>
    if String.eqb name "sgetrf" then Some (fun _ _ => Ok (VStr "sgetrf"))
    else if String.eqb name "dgetrf" then Some (fun _ _ => Ok (VStr "dgetrf"))
    else None.



(** Dtypes in the byte order that is not the platform's, as they are
    written on a little-endian platform, and a timedelta64 dtype. *)
Definition int64_swapped : dtype := mk_dtype KInt 8 (Swapped ">").
Definition float32_swapped : dtype := mk_dtype KFloat 4 (Swapped ">").
Definition timedelta64_s : dtype := mk_dtype (KTimedelta "s") 8 Native.



(** No value of the keyword map is [True]. *)
Definition no_True (kw : kwargs) : Prop :=
  Forall (fun kv => snd kv <> VBool true) kw.

(** * Properties *)

(** ** The memory estimator *)

Lemma shiftr_20 (a : Z) : Z.shiftr a 20 = a / 2 ^ 20.
Proof. apply Z.shiftr_div_pow2. lia. Qed.

(** C6: under the pattern [full], a shape [(n, p)] at element width
    [itemsize dt] costs [floor((n*p + min(n^2, p^2)) * itemsize dt / 2^20)]
    megabytes, and a 1-D shape [(k,)] is costed as [(1, k)]. *)
Theorem memory_full_estimate (n p k : Z) (dt : dtype) :
  memory_usage "full" = Some usage_full
  /\ memory [n; p] (Some dt) (memory_usage "full")
     = Ok ((n * p + Z.min (n ^ 2) (p ^ 2)) * itemsize dt / 2 ^ 20)
  /\ memory [k] (Some dt) (memory_usage "full")
     = memory [1; k] (Some dt) (memory_usage "full")
  /\ memory [k] (Some dt) (memory_usage "full")
     = Ok ((1 * k + Z.min (1 ^ 2) (k ^ 2)) * itemsize dt / 2 ^ 20).
Proof.
  repeat split; cbn [memory_usage String.eqb Ascii.eqb Bool.eqb memory np_dtype];
    unfold usage_full, _min; now rewrite ?shiftr_20.
Qed.

(** ** The argument classifier *)

Lemma dtype_eqb_refl (d : dtype) : dtype_eqb d d = true.
Proof.
  destruct d as [[] sz []]; unfold dtype_eqb; cbn;
    rewrite ?String.eqb_refl, ?Ascii.eqb_refl, Z.eqb_refl; reflexivity.
Qed.

(** C7, as the code has it: when [square] is false or the two dimensions
    are equal, a 2-D int64 or uint64 array in the platform's byte order is
    to be converted to [maxFloat], at the cost of the [same] pattern over
    its shape at [maxFloat]'s width; a 2-D array in float32 or [maxFloat],
    in the platform's byte order, or in a complex dtype costs 0 and gets
    [False], the mark of no conversion.  A 64-bit integer array in the other
    byte order does not equal [np.int64] or [np.uint64] and is to be
    converted to float32. *)
Theorem arg_process_dtype_policy
    (is64 square one : bool) (n p : Z) (d : dtype)
    (Hsquare : square = false \/ n = p) :
  (d = int64 \/ d = uint64 ->
     arg_process is64 (VArray (mk_ndarray [n; p] d one)) square
     = Ok (Z.shiftr (n * p * itemsize (maxFloat is64)) 20,
           ConvertTo (maxFloat is64))
     /\ memory [n; p] (Some (maxFloat is64)) (memory_usage "same")
        = Ok (Z.shiftr (n * p * itemsize (maxFloat is64)) 20))
  /\ (d = float32 \/ d = maxFloat is64 \/ is_complexfloating d = true ->
      arg_process is64 (VArray (mk_ndarray [n; p] d one)) square
      = Ok (0, NoConversion))
  /\ (int64 = mk_dtype KInt 8 Native /\ uint64 = mk_dtype KUInt 8 Native
      /\ float32 = mk_dtype KFloat 4 Native
      /\ maxFloat is64 = mk_dtype KFloat (if is64 then 8 else 4) Native)
  /\ (forall k c, k = KInt \/ k = KUInt ->
        arg_process is64
          (VArray (mk_ndarray [n; p] (mk_dtype k 8 (Swapped c)) one)) square
        = Ok (Z.shiftr (n * p * 4) 20, ConvertTo float32)).
Proof.
  assert (Hguard : square && negb (n =? p) = false).
  { destruct Hsquare as [-> | ->]; [reflexivity |].
    rewrite Z.eqb_refl. apply andb_false_r. }
  split; [| split; [| split]].
  - intros Hd. split.
    + unfold arg_process. cbn [a_shape a_dtype List.length nth Z.of_nat].
      cbn [Z.ltb Z.compare Pos.of_succ_nat Pos.succ Pos.compare Pos.compare_cont].
      rewrite Hguard. cbn [bind].
      destruct Hd as [-> | ->]; destruct is64; reflexivity.
    + reflexivity.
  - intros Hd. unfold arg_process.
    cbn [a_shape a_dtype List.length nth Z.of_nat].
    cbn [Z.ltb Z.compare Pos.of_succ_nat Pos.succ Pos.compare Pos.compare_cont].
    rewrite Hguard. cbn [bind].
    destruct Hd as [-> | [-> | Hc]].
    + reflexivity.
    + rewrite dtype_eqb_refl, orb_true_r. reflexivity.
    + rewrite Hc, orb_true_r. reflexivity.
  - destruct is64; repeat split.
  - intros k c Hk. unfold arg_process.
    cbn [a_shape a_dtype List.length nth Z.of_nat].
    cbn [Z.ltb Z.compare Pos.of_succ_nat Pos.succ Pos.compare Pos.compare_cont].
    rewrite Hguard. cbn [bind].
    destruct Hk as [-> | ->]; destruct is64; reflexivity.
Qed.

Lemma arg_process_dtype_policy_witness :
  arg_process true (VArray (mk_ndarray [2; 3] int64 false)) false
  = Ok (0, ConvertTo float64)
  /\ arg_process true (VArray (mk_ndarray [2048; 1024] uint64 false)) false
     = Ok (16, ConvertTo float64)
  /\ arg_process true (VArray (mk_ndarray [3; 3] complex64 false)) true
     = Ok (0, NoConversion).
Proof.
  split; [| split].
  - exact (proj1 (proj1 (arg_process_dtype_policy true false false 2 3 int64
                           (or_introl eq_refl)) (or_introl eq_refl))).
  - exact (proj1 (proj1 (arg_process_dtype_policy true false false 2048 1024
                           uint64 (or_introl eq_refl)) (or_intror eq_refl))).
  - exact (proj1 (proj2 (arg_process_dtype_policy true true false 3 3 complex64
                    (or_intror eq_refl))) (or_intror (or_intror eq_refl))).
Defined.

(** C7 as stated fails in two ways.  When [square] is set and the array is
    not square, a 2 x 3 int64 array is not classified, the call raises.
    And a 2-D array of 64-bit integers in the byte order that is not the
    platform's is to be converted to float32, not to [maxFloat]. *)
Lemma arg_process_int64_not_square :
  arg_process true (VArray (mk_ndarray [2; 3] int64 false)) true
  = Raise AssertionError "2D array is not square. Dimensions seen are (2, 3)."
  /\ ~ (exists cost,
         arg_process true (VArray (mk_ndarray [2; 3] int64 false)) true
         = Ok (cost, ConvertTo (maxFloat true)))
  /\ arg_process true (VArray (mk_ndarray [2; 2] int64_swapped false)) false
     = Ok (0, ConvertTo float32)
  /\ ~ (exists cost,
         arg_process true (VArray (mk_ndarray [2; 2] int64_swapped false)) false
         = Ok (cost, ConvertTo (maxFloat true))).
Proof.
  split; [reflexivity |]. split; [intros [cost H]; discriminate H |].
  split; [reflexivity |]. intros [cost H]. discriminate H.
Qed.

(** C10: a 1-D array of any dtype is given cost 0 and [None], whatever
    [square] is; nothing is raised. *)
Theorem arg_process_one_dimension
    (is64 square : bool) (a : ndarray)
    (H1 : List.length (a_shape a) = 1%nat) :
  arg_process is64 (VArray a) square = Ok (0, NoClassification).
Proof.
  unfold arg_process. rewrite H1. reflexivity.
Qed.

Lemma arg_process_one_dimension_witness :
  arg_process true (VArray (mk_ndarray [7] float16 false)) true
  = Ok (0, NoClassification)
  /\ arg_process true (VArray (mk_ndarray [7] bool_ false)) true
     = Ok (0, NoClassification).
Proof.
  split.
  - apply (arg_process_one_dimension true true (mk_ndarray [7] float16 false)).
    reflexivity.
  - apply (arg_process_one_dimension true true (mk_ndarray [7] bool_ false)).
    reflexivity.
Defined.

(** ** Decoration without [memcheck] *)

(** C5: with [memcheck] left at [None], [process] does not return a
    wrapper: [decorate] takes [len(memcheck)] and raises [TypeError], for
    every function and either value of [square]. *)
Theorem process_memcheck_None_raises
    (is64 : bool) (available : nat -> Z) (f : pyfun) (square : bool) :
  process is64 available f McNone square
  = Raise TypeError "object of type 'NoneType' has no len()".
Proof. reflexivity. Qed.

(** ** Unknown keyword names *)

(** C4: [f(X, k)] called through the wrapper as [f(X, verbose=v)] raises
    [NameError]; the message holds the signature but, in place of the
    keyword's name, the text [{x}]. *)
Theorem unknown_keyword_message
    (is64 : bool) (available : nat -> Z) (memcheck : list (string * usage))
    (square : bool) (body : list value -> kwargs -> result value)
    (a : ndarray) (v : value) (w : nat) :
  wrapper is64 available memcheck square (f_X_k body)
    [VArray a] [("verbose", v)] w
  = (Raise NameError
       "Argument '{x}' is not recognised in function. Function accepted signature is (X, k).",
     w)
  /\ contains "verbose"
       "Argument '{x}' is not recognised in function. Function accepted signature is (X, k)."
     = false
  /\ contains "(X, k)" (name_error_msg (f_X_k body)) = true.
Proof. repeat split. Qed.

(** Whatever the keyword, the check of lines 151-159 raises the same
    message. *)
Lemma check_names_raises (f : pyfun) (items : kwargs) (otherYes : Z)
    (c : exn_class) (m : string) :
  check_names f items otherYes = Raise c m ->
  c = NameError /\ m = name_error_msg f.
Proof.
  revert otherYes. induction items as [| [x t] rest IH]; intros otherYes H;
    cbn [check_names] in H.
  - discriminate H.
  - destruct (has_parameter f x).
    + exact (IH _ H).
    + now inversion H.
Qed.

(** ** The resolver *)

(** C8: a resolver built for a routine name with [turbo] at its default
    and no [numba] routine (none named, or none found under the name), for
    which [_lapack] has the [s] routine, binds that routine at a first call
    on a float32 array and calls it; every later call, whatever its
    arguments, goes to the same routine and leaves the resolver as it is. *)
Theorem lapack_binding_is_memoized
    (_numba _lapack : string -> option Lapack.routine)
    (name : string) (numba : option string) (s_routine : Lapack.routine)
    (x32 x64 : ndarray) (rest1 rest2 : list value) (kw1 kw2 : kwargs)
    (Hnumba : forall alt, numba = Some alt -> _numba alt = None)
    (Hs : _lapack ("s" +++ name) = Some s_routine)
    (H32 : a_dtype x32 = float32)
    (H64 : a_dtype x64 = float64) :
  let self := Lapack.__init__ _numba name numba Lapack.turbo_default in
  let first := Lapack.__call__ _lapack self (VArray x32 :: rest1) kw1 in
  let second := Lapack.__call__ _lapack (fst first) (VArray x64 :: rest2) kw2 in
  Lapack.f self = Lapack.Unbound
  /\ Lapack.f (fst first) = Lapack.Routine s_routine
  /\ snd first = s_routine (VArray x32 :: rest1) kw1
  /\ snd second = s_routine (VArray x64 :: rest2) kw2
  /\ fst second = fst first
  /\ forall args kw,
       Lapack.__call__ _lapack (fst first) args kw
       = (fst first, s_routine args kw).
Proof.
  cbn zeta.
  assert (Hself : Lapack.__init__ _numba name numba Lapack.turbo_default
                  = Lapack.mk_lapack name true Lapack.Unbound).
  { unfold Lapack.__init__. destruct numba as [alt |]; [| reflexivity].
    now rewrite (Hnumba alt eq_refl). }
  rewrite Hself. unfold Lapack.__call__.
  cbn [Lapack.f Lapack.first_dtype Lapack.dtype_of].
  unfold Lapack.routine_name. cbn [Lapack.turbo Lapack.function].
  rewrite H32. change (dtype_eqb float32 float32) with true. cbn [andb].
  rewrite Hs. cbn [fst snd Lapack.f]. repeat split.
Qed.

Lemma lapack_binding_is_memoized_witness :
  let self := Lapack.__init__ (fun _ => None) "getrf" None Lapack.turbo_default in
  let first :=
    Lapack.__call__ getrf_only self [VArray (mk_ndarray [2; 2] float32 false)] [] in
  let second :=
    Lapack.__call__ getrf_only (fst first)
      [VArray (mk_ndarray [2; 2] float64 false)] [] in
  snd first = Ok (VStr "sgetrf") /\ snd second = Ok (VStr "sgetrf").
Proof.
  pose proof (lapack_binding_is_memoized (fun _ => None) getrf_only "getrf" None
                (fun _ _ => Ok (VStr "sgetrf"))
                (mk_ndarray [2; 2] float32 false)
                (mk_ndarray [2; 2] float64 false) [] [] [] []
                ltac:(discriminate) eq_refl eq_refl eq_refl) as H.
  cbn zeta in H. destruct H as (_ & _ & H1 & H2 & _).
  split; [exact H1 | exact H2].
Defined.

(** With [turbo] off, line 291 sends a float32 array to the [d] routine. *)
Lemma lapack_turbo_off_binds_double
    (_lapack : string -> option Lapack.routine) (name : string)
    (d_routine : Lapack.routine) (x32 : ndarray) (kw : kwargs) :
  _lapack ("d" +++ name) = Some d_routine ->
  a_dtype x32 = float32 ->
  Lapack.__call__ _lapack (Lapack.mk_lapack name false Lapack.Unbound)
    [VArray x32] kw
  = (Lapack.mk_lapack name false (Lapack.Routine d_routine),
     d_routine [VArray x32] kw).
Proof.
  intros Hd H32. unfold Lapack.__call__.
  cbn [Lapack.f Lapack.first_dtype Lapack.dtype_of].
  unfold Lapack.routine_name. cbn [Lapack.turbo Lapack.function].
  rewrite H32.
  change (dtype_eqb float32 float32) with true.
  change (dtype_eqb float32 float64) with false.
  cbn [andb orb negb]. now rewrite Hd.
Qed.

(** ** The budget: [int(available * 0.94) >> 20]

    The product is taken in binary64; these lemmas follow the rounding of
    [SFmul] down to integer arithmetic. *)

(** [MAX_MEMORY] has 53 digits and is the multiple of [2^-53] nearest to
    94/100. *)
Lemma MAX_MEMORY_nearest :
  MAX_MEMORY = S754_finite false 8466767299456532 (-53)
  /\ 2 ^ 52 <= 8466767299456532 < 2 ^ 53
  /\ 2 * Z.abs (100 * 8466767299456532 - 94 * 2 ^ 53) < 100.
Proof. repeat split; cbn; lia. Qed.

Lemma digits2_size (p : positive) : digits2_pos p = Pos.size p.
Proof. induction p; cbn; congruence. Qed.

Lemma digits2_bounds (p : positive) :
  2 ^ (Zpos (digits2_pos p) - 1) <= Zpos p < 2 ^ Zpos (digits2_pos p).
Proof.
  rewrite digits2_size. split.
  - pose proof (Pos.size_le p) as H.
    apply Pos2Z.pos_le_pos in H. rewrite Pos2Z.inj_pow in H.
    change (Zpos p~0) with (2 * Zpos p) in H.
    replace (Zpos (Pos.size p)) with (Z.succ (Zpos (Pos.size p) - 1)) in H by lia.
    rewrite Z.pow_succ_r in H by lia. lia.
  - pose proof (Pos.size_gt p) as H.
    apply Pos2Z.pos_lt_pos in H. now rewrite Pos2Z.inj_pow in H.
Qed.

Lemma digits2_unique (p : positive) (D : Z) :
  2 ^ (D - 1) <= Zpos p < 2 ^ D -> Zpos (digits2_pos p) = D.
Proof.
  intros [Hlo Hhi]. pose proof (digits2_bounds p) as [Glo Ghi].
  assert (HD : 0 < D).
  { destruct (Z.ltb_spec 0 D); [assumption |].
    destruct (Z.eqb_spec D 0) as [-> | Hne].
    - cbn in Hhi. lia.
    - rewrite Z.pow_neg_r in Hhi by lia. lia. }
  destruct (Z.lt_trichotomy (Zpos (digits2_pos p)) D) as [Hlt | [Heq | Hgt]];
    [| exact Heq |].
  - assert (2 ^ Zpos (digits2_pos p) <= 2 ^ (D - 1))
      by (apply Z.pow_le_mono_r; lia). lia.
  - assert (2 ^ D <= 2 ^ (Zpos (digits2_pos p) - 1))
      by (apply Z.pow_le_mono_r; lia). lia.
Qed.

Lemma shr_1_m (r : shr_record) :
  0 <= shr_m r -> shr_m (shr_1 r) = shr_m r / 2.
Proof.
  destruct r as [m rr ss]. cbn [shr_m]. intros Hm.
  rewrite <- Z.div2_div. destruct m as [| [q | q |] | q]; try lia; reflexivity.
Qed.

Lemma shr_m_iter (p : positive) (r : shr_record) :
  0 <= shr_m r ->
  0 <= shr_m (iter_pos shr_1 p r)
  /\ shr_m (iter_pos shr_1 p r) = shr_m r / 2 ^ Zpos p.
Proof.
  revert r. induction p as [p IH | p IH |]; intros r Hr; cbn [iter_pos].
  - assert (H1 : 0 <= shr_m (shr_1 r))
      by (rewrite shr_1_m by exact Hr; apply Z.div_pos; lia).
    destruct (IH _ H1) as [H2 E2]. destruct (IH _ H2) as [H3 E3].
    split; [exact H3 |]. rewrite E3, E2, shr_1_m by exact Hr.
    rewrite !Z.div_div by lia. f_equal.
    change (Zpos p~1) with (2 * Zpos p + 1).
    rewrite Z.pow_add_r, Z.pow_mul_r by lia.
    change (2 ^ 2) with 4. change (2 ^ 1) with 2.
    replace (4 ^ Zpos p) with (2 ^ Zpos p * 2 ^ Zpos p); [lia |].
    rewrite <- Z.pow_mul_l. reflexivity.
  - destruct (IH _ Hr) as [H2 E2]. destruct (IH _ H2) as [H3 E3].
    split; [exact H3 |]. rewrite E3, E2.
    rewrite !Z.div_div by lia. f_equal.
    change (Zpos p~0) with (2 * Zpos p).
    rewrite Z.pow_mul_r by lia. change (2 ^ 2) with 4.
    rewrite <- Z.pow_mul_l. reflexivity.
  - rewrite shr_1_m by exact Hr. split; [apply Z.div_pos; lia | reflexivity].
Qed.

Lemma fexp_53 (e : Z) : -1021 <= e -> fexp 53 1024 e = e - 53.
Proof. intros H. unfold fexp, emin. lia. Qed.

Lemma round_nearest_even_bounds (m : Z) (l : location) :
  m <= round_nearest_even m l <= m + 1.
Proof.
  destruct l as [| []]; cbn [round_nearest_even]; try lia.
  destruct (Z.even m); lia.
Qed.

(** The integer part of [m * 2^e], as [int_of_float] takes it. *)
Lemma int_of_float_finite (m : positive) (e : Z) :
  int_of_float (S754_finite false m e)
  = Ok (if 0 <=? e then Zpos m * 2 ^ e else Zpos m / 2 ^ (- e)).
Proof. reflexivity. Qed.

Lemma round_aux_noshift (s : bool) (P : positive) (E : Z) :
  Zpos (digits2_pos P) <= 53 -> -1021 <= Zpos (digits2_pos P) + E ->
  E <= 971 ->
  binary_round_aux 53 1024 s (Zpos P) E loc_Exact = S754_finite s P E.
Proof.
  intros Hd Hlo Hhi. unfold binary_round_aux, shr_fexp.
  cbn [Zdigits2 shr_record_of_loc]. rewrite fexp_53 by exact Hlo.
  assert (Hshift : shr {| shr_m := Zpos P; shr_r := false; shr_s := false |} E
                     (Zpos (digits2_pos P) + E - 53 - E)
                   = ({| shr_m := Zpos P; shr_r := false; shr_s := false |}, E)).
  { unfold shr.
    destruct (Zpos (digits2_pos P) + E - 53 - E) as [| q | q] eqn:Hq;
      [reflexivity | lia | reflexivity]. }
  rewrite Hshift. cbn [shr_m loc_of_shr_record round_nearest_even Zdigits2
                       shr_record_of_loc].
  rewrite fexp_53 by exact Hlo. rewrite Hshift. cbn [shr_m].
  replace (E <=? 1024 - 53) with true by (symmetry; apply Z.leb_le; lia).
  reflexivity.
Qed.

Lemma round_aux_shift (P : positive) (E : Z) :
  53 < Zpos (digits2_pos P) -> -1021 <= Zpos (digits2_pos P) + E ->
  Zpos (digits2_pos P) + E <= 53 ->
  exists m e t,
    binary_round_aux 53 1024 false (Zpos P) E loc_Exact = S754_finite false m e
    /\ int_of_float (S754_finite false m e) = Ok t
    /\ Zpos P / 2 ^ (- E) <= t <= Zpos P / 2 ^ (- E) + 1.
Proof.
  set (d := Zpos (digits2_pos P)). intros Hd Hlo Hhi.
  pose proof (digits2_bounds P) as [Plo Phi]. fold d in Plo, Phi.
  unfold binary_round_aux, shr_fexp.
  cbn [Zdigits2 shr_record_of_loc]. fold d. rewrite fexp_53 by exact Hlo.
  destruct (d + E - 53 - E) as [| pn | pn] eqn:Hn; try lia.
  unfold shr at 1.
  set (r0 := {| shr_m := Zpos P; shr_r := false; shr_s := false |}).
  destruct (shr_m_iter pn r0 ltac:(cbn; lia)) as [Hq0 Hq].
  set (r1 := iter_pos shr_1 pn r0) in *.
  change (shr_m r0) with (Zpos P) in Hq.
  set (q := shr_m r1) in *.
  assert (Hpow : 2 ^ d = 2 ^ Zpos pn * 2 ^ 53)
    by (rewrite <- Z.pow_add_r by lia; f_equal; lia).
  assert (Hpow1 : 2 ^ (d - 1) = 2 ^ Zpos pn * 2 ^ 52)
    by (rewrite <- Z.pow_add_r by lia; f_equal; lia).
  assert (Hpn : 0 < 2 ^ Zpos pn) by (apply Z.pow_pos_nonneg; lia).
  assert (Hqb : 2 ^ 52 <= q < 2 ^ 53).
  { rewrite Hq. split.
    - apply Z.div_le_lower_bound; lia.
    - apply Z.div_lt_upper_bound; lia. }
  pose proof (round_nearest_even_bounds q (loc_of_shr_record r1)) as Hr.
  set (q' := round_nearest_even q (loc_of_shr_record r1)) in *.
  set (e' := E + Zpos pn).
  assert (He' : e' = d + E - 53) by (unfold e'; lia).
  assert (Hj : 0 < 2 ^ (- e')) by (apply Z.pow_pos_nonneg; lia).
  assert (Hval : Zpos P / 2 ^ (- E) = q / 2 ^ (- e')).
  { rewrite Hq, Z.div_div by lia. f_equal.
    rewrite <- Z.pow_add_r by lia. f_equal. lia. }
  assert (Hup : (q + 1) / 2 ^ (- e') <= q / 2 ^ (- e') + 1).
  { replace (q / 2 ^ (- e') + 1) with ((q + 1 * 2 ^ (- e')) / 2 ^ (- e'))
      by (rewrite Z.div_add by lia; reflexivity).
    apply Z.div_le_mono; lia. }
  assert (Hbound : Zpos P / 2 ^ (- E) <= q' / 2 ^ (- e')
                   <= Zpos P / 2 ^ (- E) + 1).
  { rewrite Hval. split.
    - apply Z.div_le_mono; lia.
    - etransitivity; [apply Z.div_le_mono; [lia |]; apply Hr | exact Hup]. }
  destruct q' as [| pq | pq] eqn:Hq'; try (change (2 ^ 52) with 4503599627370496 in Hqb; lia).
  cbn [Zdigits2 shr_record_of_loc].
  destruct (Z.eq_dec (Zpos pq) (2 ^ 53)) as [Htop | Hnot].
  - (* the rounding carried into a 54th digit *)
    assert (Hpq : pq = 9007199254740992%positive) by (injection Htop; auto).
    subst pq.
    change (Zpos (digits2_pos 9007199254740992)) with 54.
    rewrite fexp_53 by lia.
    replace (54 + e' - 53 - e') with 1 by lia.
    cbn [shr iter_pos shr_1 shr_m].
    replace (e' + 1 <=? 1024 - 53) with true by (symmetry; apply Z.leb_le; lia).
    eexists _, _, _. split; [reflexivity |].
    rewrite int_of_float_finite. split; [reflexivity |].
    destruct (Z.leb_spec 0 (e' + 1)) as [Hpos | Hneg].
    + assert (He0 : e' = 0 \/ e' = -1) by lia.
      destruct He0 as [He0 | He0]; rewrite He0 in Hbound |- *.
      * change (2 ^ (0 + 1)) with 2. change (2 ^ (- 0)) with 1 in Hbound.
        rewrite Z.div_1_r in Hbound. lia.
      * change (2 ^ (-1 + 1)) with 1. change (2 ^ (- -1)) with 2 in Hbound.
        change (Zpos 9007199254740992 / 2) with 4503599627370496 in Hbound.
        lia.
    + replace (Zpos 4503599627370496 / 2 ^ (- (e' + 1)))
        with (Zpos 9007199254740992 / 2 ^ (- e')); [exact Hbound |].
      replace (2 ^ (- e')) with (2 * 2 ^ (- (e' + 1)))
        by (rewrite <- Z.pow_succ_r by lia; f_equal; lia).
      change (Zpos 9007199254740992) with (2 * Zpos 4503599627370496).
      apply Z.div_mul_cancel_l; [| lia].
      apply Z.pow_nonzero; lia.
  - assert (Hdq : Zpos (digits2_pos pq) = 53).
    { apply digits2_unique. change (53 - 1) with 52. lia. }
    rewrite Hdq, fexp_53 by lia.
    replace (53 + e' - 53 - e') with 0 by lia.
    cbn [shr shr_m].
    replace (e' <=? 1024 - 53) with true by (symmetry; apply Z.leb_le; lia).
    eexists _, _, _. split; [reflexivity |].
    rewrite int_of_float_finite. split; [reflexivity |].
    destruct (Z.leb_spec 0 e') as [Hpos | Hneg]; [| exact Hbound].
    assert (e' = 0) as He0 by lia. rewrite He0 in Hbound |- *.
    change (2 ^ 0) with 1. change (2 ^ (- 0)) with 1 in Hbound.
    rewrite Z.div_1_r in Hbound. lia.
Qed.

Lemma iter_xO (p k : positive) :
  Zpos (Pos.iter xO p k) = Zpos p * 2 ^ Zpos k.
Proof.
  induction k as [| k IH] using Pos.peano_ind.
  - cbn [Pos.iter]. change (2 ^ 1) with 2. lia.
  - rewrite Pos.iter_succ, Pos2Z.inj_succ, Z.pow_succ_r by lia.
    change (Zpos (Pos.iter xO p k)~0) with (2 * Zpos (Pos.iter xO p k)).
    rewrite IH. lia.
Qed.

(** [float(a)] is exact below [2^53]: a mantissa of 53 digits and the
    exponent that goes with it. *)
Lemma float_of_int_exact (a : Z) :
  0 < a < 2 ^ 53 ->
  exists m e,
    float_of_int a = Ok (S754_finite false m e)
    /\ -52 <= e <= 0 /\ Zpos m = a * 2 ^ (- e)
    /\ 2 ^ 52 <= Zpos m < 2 ^ 53.
Proof.
  intros [Hpos Hlt]. destruct a as [| pa | pa]; try lia.
  pose proof (digits2_bounds pa) as [Dlo Dhi].
  set (d := Zpos (digits2_pos pa)) in *.
  assert (Hd : 1 <= d <= 53).
  { split; [unfold d; lia |].
    destruct (Z.leb_spec d 53); [assumption |].
    assert (2 ^ 53 <= 2 ^ (d - 1)) by (apply Z.pow_le_mono_r; lia). lia. }
  unfold float_of_int, binary_normalize, binary_round, shl_align.
  fold d. rewrite fexp_53 by lia.
  destruct (d + 0 - 53 - 0) as [| k | k] eqn:Hk; try lia.
  - assert (d = 53) as Hd53 by lia.
    rewrite round_aux_noshift by (fold d; lia).
    exists pa, 0. split; [reflexivity |]. split; [lia |].
    change (2 ^ (- 0)) with 1. split; [lia |].
    rewrite Hd53 in Dlo. change (53 - 1) with 52 in Dlo. lia.
  - assert (Hm : 2 ^ 52 <= Zpos (Pos.iter xO pa k) < 2 ^ 53).
    { rewrite iter_xO.
      assert (H52 : 2 ^ 52 = 2 ^ (d - 1) * 2 ^ Zpos k)
        by (rewrite <- Z.pow_add_r by lia; f_equal; lia).
      assert (H53 : 2 ^ 53 = 2 ^ d * 2 ^ Zpos k)
        by (rewrite <- Z.pow_add_r by lia; f_equal; lia).
      assert (0 < 2 ^ Zpos k) by (apply Z.pow_pos_nonneg; lia).
      rewrite H52, H53. split; nia. }
    assert (Hdm : Zpos (digits2_pos (Pos.iter xO pa k)) = 53)
      by (apply digits2_unique; change (53 - 1) with 52; exact Hm).
    rewrite round_aux_noshift by lia.
    exists (Pos.iter xO pa k), (d + 0 - 53). split; [reflexivity |].
    split; [lia |]. split; [| exact Hm].
    rewrite iter_xO. do 2 f_equal. lia.
Qed.

(** The value of [MAX_MEMORY]: [8466767299456532 / 2^53]. *)
Lemma SFmul_MAX_MEMORY (m : positive) (e : Z) :
  SFmul 53 1024 (S754_finite false m e) MAX_MEMORY
  = binary_round_aux 53 1024 false (Zpos (m * 8466767299456532)) (e + -53)
      loc_Exact.
Proof. reflexivity. Qed.

Lemma free_MB_value (a : Z) :
  0 <= a < 2 ^ 53 ->
  exists t,
    free_MB a = Ok (Z.shiftr t 20)
    /\ a * 8466767299456532 / 2 ^ 53 <= t <= a * 8466767299456532 / 2 ^ 53 + 1.
Proof.
  intros [H0 Hlt]. destruct (Z.eq_dec a 0) as [-> | Hne].
  { exists 0. split; [reflexivity |]. cbn. lia. }
  destruct (float_of_int_exact a ltac:(lia)) as (m & e & Hf & He & Hm & Hmb).
  unfold free_MB. rewrite Hf. cbn [bind]. rewrite SFmul_MAX_MEMORY.
  set (P := (m * 8466767299456532)%positive).
  assert (HP : Zpos P = Zpos m * 8466767299456532) by reflexivity.
  pose proof (digits2_bounds P) as [Plo Phi].
  assert (Hd : 104 < Zpos (digits2_pos P) <= 106).
  { split.
    - destruct (Z.ltb_spec 104 (Zpos (digits2_pos P))); [assumption |].
      assert (2 ^ Zpos (digits2_pos P) <= 2 ^ 104)
        by (apply Z.pow_le_mono_r; lia).
      change (2 ^ 104) with (2 ^ 52 * 2 ^ 52) in *.
      change (2 ^ 52) with 4503599627370496 in *. nia.
    - destruct (Z.leb_spec (Zpos (digits2_pos P)) 106); [assumption |].
      assert (2 ^ 106 <= 2 ^ (Zpos (digits2_pos P) - 1))
        by (apply Z.pow_le_mono_r; lia).
      change (2 ^ 106) with (2 ^ 53 * 2 ^ 53) in *.
      change (2 ^ 53) with 9007199254740992 in *. nia. }
  destruct (round_aux_shift P (e + -53) ltac:(lia) ltac:(lia) ltac:(lia))
    as (m' & e' & t & Hr & Ht & Hb).
  rewrite Hr, Ht. cbn [bind]. exists t. split; [reflexivity |].
  replace (a * 8466767299456532 / 2 ^ 53) with (Zpos P / 2 ^ (- (e + -53)));
    [exact Hb |].
  rewrite HP, Hm.
  replace (2 ^ (- (e + -53))) with (2 ^ 53 * 2 ^ (- e))
    by (rewrite <- Z.pow_add_r by lia; f_equal; lia).
  replace (a * 2 ^ (- e) * 8466767299456532)
    with (a * 8466767299456532 * 2 ^ (- e)) by lia.
  apply Z.div_mul_cancel_r; [lia |]. apply Z.pow_nonzero; lia.
Qed.

(** In terms of 94 %: [t] is within one byte of [94 * a / 100]. *)
Lemma free_MB_margin (a : Z) :
  0 <= a < 2 ^ 53 ->
  exists t,
    free_MB a = Ok (Z.shiftr t 20)
    /\ 94 * a / 100 - 1 <= t <= 94 * a / 100 + 1.
Proof.
  intros Ha. destruct (free_MB_value a Ha) as (t & Hf & Hlo & Hhi).
  exists t. split; [exact Hf |].
  change (2 ^ 53) with 9007199254740992 in *.
  pose proof (Z.div_mod (a * 8466767299456532) 9007199254740992 ltac:(lia)).
  pose proof (Z.mod_pos_bound (a * 8466767299456532) 9007199254740992 ltac:(lia)).
  pose proof (Z.div_mod (94 * a) 100 ltac:(lia)).
  pose proof (Z.mod_pos_bound (94 * a) 100 ltac:(lia)).
  lia.
Qed.

(** ** Admission control *)



Section AdmissionLemmas.

Variable is64 : bool.
Variable available : nat -> Z.
Variable memcheck : list (string * usage).
Variable square : bool.
Variable f : pyfun.






End AdmissionLemmas.





(** ** The scenario of a 1000 x 1000 float16 array under [full] *)

Lemma check_arguments_single (f : pyfun) (X : ndarray) :
  parameters f <> [] -> check_arguments f [VArray X] [] = Ok X.
Proof.
  intros Hp. unfold check_arguments, len. cbn [List.length Z.of_nat].
  destruct (parameters f) as [| q qs]; [contradiction |].
  cbn [List.length]. replace (Z.of_nat (S (List.length qs)) <? _) with false.
  - reflexivity.
  - symmetry. apply Z.ltb_ge. cbn. lia.
Qed.

(** C1, as the code has it: under [full] with [square] false, a single
    1000 x 1000 float16 array is booked for conversion to float32 and the
    call needs 10 MB (3 for the conversion, 7 for the operation).  The
    memory check raises [MemoryError] with the shortfall when fewer than
    10 MB are free, and passes otherwise: 50000 MB available leave 47000 MB
    free, 50 MB leave 47 MB, 10 MB leave 9 MB. *)
Theorem float16_1000x1000_under_full
    (is64 : bool) (available : nat -> Z) (f : pyfun) (w : nat) (free : Z)
    (Hparams : parameters f <> [])
    (Hfree : free_MB (available w) = Ok free) :
  process is64 available f (McStr "full") false
  = Ok (wrapper is64 available memcheck_X_full false f)
  /\ accounting is64 memcheck_X_full false f [VArray float16_1000x1000] []
     = Ok (mk_accounted [VArray float16_1000x1000] [("X", VBool true)]
             [false] [ConvertTo float32; NoClassification] 10)
  /\ (free < 10 ->
      wrapper is64 available memcheck_X_full false f
        [VArray float16_1000x1000] [] w
      = (Raise MemoryError (shortfall_msg 10 free), S w))
  /\ (10 <= free -> admission available 10 w = (Ok tt, S w))
  /\ free_MB (50000 * MB) = Ok 47000
  /\ free_MB (50 * MB) = Ok 47
  /\ free_MB (10 * MB) = Ok 9
  /\ shortfall_msg 10 9
     = "Operation requires 10 MB, but 9 MB is free, so an extra 1 MB is required.".
Proof.
  assert (Hacc : accounting is64 memcheck_X_full false f
                   [VArray float16_1000x1000] []
                 = Ok (mk_accounted [VArray float16_1000x1000]
                         [("X", VBool true)] [false]
                         [ConvertTo float32; NoClassification] 10)).
  { unfold accounting. rewrite (check_arguments_single f _ Hparams).
    destruct is64; reflexivity. }
  split; [reflexivity |]. split; [exact Hacc |].
  split; [| split].
  - intros Hlt. unfold wrapper, admission. rewrite Hacc.
    cbn [acc_need]. rewrite Hfree. cbn [bind Z.ltb Z.compare].
    apply Z.ltb_lt in Hlt. now rewrite Hlt.
  - intros Hge. unfold admission. rewrite Hfree.
    cbn [bind Z.ltb Z.compare]. apply Z.ltb_ge in Hge. now rewrite Hge.
  - repeat split; vm_compute; reflexivity.
Qed.

Lemma float16_1000x1000_under_full_witness :
  accounting true memcheck_X_full false f_X [VArray float16_1000x1000] []
  = Ok (mk_accounted [VArray float16_1000x1000] [("X", VBool true)]
          [false] [ConvertTo float32; NoClassification] 10)
  /\ admission (reports (50 * MB)) 10 0 = (Ok tt, 1%nat).
Proof.
  pose proof (float16_1000x1000_under_full true (reports (50 * MB)) f_X 0 47
                ltac:(discriminate) ltac:(vm_compute; reflexivity)) as H.
  destruct H as (_ & Hacc & _ & Hpass & _).
  split; [exact Hacc | apply Hpass; lia].
Defined.

(** C1 as stated fails: with 50 MB available the call does not raise
    [MemoryError], and with 50000 MB available it does not return; both
    calls stop at line 227. *)
Lemma float16_1000x1000_claimed_outcomes :
  fst (wrapper true (reports (50 * MB)) memcheck_X_full false f_X
         [VArray float16_1000x1000] [] 0)
  = Raise TypeError tuple_assign_msg
  /\ fst (wrapper true (reports (50000 * MB)) memcheck_X_full false f_X
            [VArray float16_1000x1000] [] 0)
     = Raise TypeError tuple_assign_msg
  /\ ~ (exists m,
         fst (wrapper true (reports (50 * MB)) memcheck_X_full false f_X
                [VArray float16_1000x1000] [] 0)
         = Raise MemoryError m)
  /\ ~ (exists v,
         fst (wrapper true (reports (50000 * MB)) memcheck_X_full false f_X
                [VArray float16_1000x1000] [] 0)
         = Ok v).
Proof.
  assert (H1 : fst (wrapper true (reports (50 * MB)) memcheck_X_full false f_X
                      [VArray float16_1000x1000] [] 0)
               = Raise TypeError tuple_assign_msg) by (vm_compute; reflexivity).
  assert (H2 : fst (wrapper true (reports (50000 * MB)) memcheck_X_full false f_X
                      [VArray float16_1000x1000] [] 0)
               = Raise TypeError tuple_assign_msg) by (vm_compute; reflexivity).
  rewrite H1, H2. repeat split.
  - intros [m H]. discriminate H.
  - intros [v H]. discriminate H.
Qed.

(** ** The keyword map *)

Lemma kw_get_set_same (kw : kwargs) (x : string) (v : value) :
  kw_get (kw_set kw x v) x = Some v.
Proof.
  induction kw as [| [y u] rest IH]; cbn.
  - now rewrite String.eqb_refl.
  - destruct (String.eqb x y) eqn:E; cbn; now rewrite E.
Qed.

Lemma kw_get_set_other (kw : kwargs) (x y : string) (v : value) :
  x <> y -> kw_get (kw_set kw x v) y = kw_get kw y.
Proof.
  intros Hxy. induction kw as [| [z u] rest IH]; cbn.
  - destruct (String.eqb_spec y x); [congruence | reflexivity].
  - destruct (String.eqb_spec x z) as [-> | Hxz]; cbn.
    + destruct (String.eqb_spec y z); [congruence | reflexivity].
    + now rewrite IH.
Qed.

Lemma kw_get_map_values (g : value -> value) (kw : kwargs) (k : string) :
  kw_get (map_values g kw) k = option_map g (kw_get kw k).
Proof.
  induction kw as [| [y u] rest IH]; cbn; [reflexivity |].
  destruct (String.eqb k y); [reflexivity | exact IH].
Qed.

Lemma kw_get_In (kw : kwargs) (k : string) (v : value) :
  kw_get kw k = Some v -> In (k, v) kw.
Proof.
  induction kw as [| [y u] rest IH]; cbn; [discriminate |].
  destruct (String.eqb_spec k y) as [-> | Hky]; intros H.
  - left. congruence.
  - right. exact (IH H).
Qed.

Lemma kw_get_del_other (kw : kwargs) (x k : string) :
  k <> x -> kw_get (kw_del kw x) k = kw_get kw k.
Proof.
  intros Hkx. induction kw as [| [y u] rest IH]; cbn; [reflexivity |].
  destruct (String.eqb_spec x y) as [-> | Hxy]; cbn.
  - destruct (String.eqb_spec k y); [congruence | reflexivity].
  - now rewrite IH.
Qed.

Lemma kw_get_leftovers (keys : list string) (kw : kwargs) (k : string) :
  kw_get (leftovers keys kw) k
  = match kw_get kw k with
    | Some v => Some v
    | None => if existsb (String.eqb k) keys then Some (VBool false) else None
    end.
Proof.
  revert kw. induction keys as [| x rest IH]; intros kw; cbn.
  - now destruct (kw_get kw k).
  - destruct (kw_get kw x) eqn:Ex.
    + rewrite IH. destruct (kw_get kw k) eqn:Ek; [reflexivity |].
      destruct (String.eqb_spec k x) as [-> | Hkx]; [congruence | reflexivity].
    + rewrite IH. destruct (String.eqb_spec k x) as [-> | Hkx].
      * now rewrite kw_get_set_same, Ex.
      * rewrite kw_get_set_other by congruence.
        reflexivity.
Qed.


Lemma set_False_not_True (t : value) : set_False t <> VBool true.
Proof. destruct t as [| [] | | | |]; discriminate. Qed.

(** ** Flag resolution *)












Lemma kw_del_map_values (g : value -> value) (kw : kwargs) (x : string) :
  kw_del (map_values g kw) x = map_values g (kw_del kw x).
Proof.
  induction kw as [| [y u] rest IH]; cbn; [reflexivity |].
  destruct (String.eqb x y); [reflexivity |]. cbn. f_equal. exact IH.
Qed.

Lemma kw_del_set_same (kw : kwargs) (x : string) (v : value) :
  kw_del (kw_set kw x v) x = kw_del kw x.
Proof.
  induction kw as [| [y u] rest IH]; cbn.
  - now rewrite String.eqb_refl.
  - destruct (String.eqb x y) eqn:E; cbn; rewrite E; [reflexivity |].
    now rewrite IH.
Qed.

Lemma kw_del_set_other (kw : kwargs) (x y : string) (v : value) :
  x <> y -> kw_del (kw_set kw x v) y = kw_set (kw_del kw y) x v.
Proof.
  intros Hxy. induction kw as [| [z u] rest IH]; cbn.
  - destruct (String.eqb_spec y x); [congruence | reflexivity].
  - destruct (String.eqb_spec x z) as [-> | Hxz];
      destruct (String.eqb_spec y z) as [-> | Hyz]; cbn.
    + congruence.
    + rewrite String.eqb_refl.
      destruct (String.eqb_spec y z); [congruence | reflexivity].
    + rewrite String.eqb_refl. reflexivity.
    + destruct (String.eqb_spec x z); [congruence |].
      destruct (String.eqb_spec y z); [congruence |]. now rewrite IH.
Qed.

Lemma no_True_del (kw : kwargs) (x : string) :
  no_True kw -> no_True (kw_del kw x).
Proof.
  unfold no_True. induction kw as [| [y u] rest IH]; cbn; intros H.
  - constructor.
  - inversion H; subst. destruct (String.eqb x y); [assumption |].
    constructor; auto.
Qed.

Lemma no_True_set (kw : kwargs) (x : string) (v : value) :
  v <> VBool true -> no_True kw -> no_True (kw_set kw x v).
Proof.
  unfold no_True. intros Hv. induction kw as [| [y u] rest IH]; cbn; intros H.
  - repeat constructor. exact Hv.
  - inversion H; subst. destruct (String.eqb x y); constructor; auto.
Qed.

Lemma no_True_map_values (g : value -> value) (kw : kwargs) :
  (forall t, t <> VBool true -> g t <> VBool true) ->
  no_True kw -> no_True (map_values g kw).
Proof.
  unfold no_True. intros Hg. induction kw as [| [y u] rest IH]; cbn; intros H.
  - constructor.
  - inversion H; subst. constructor; [apply Hg; assumption | auto].
Qed.

Lemma no_True_set_False (kw : kwargs) : no_True (map_values set_False kw).
Proof.
  unfold no_True. induction kw as [| [y u] rest IH]; cbn; constructor;
    [apply set_False_not_True | exact IH].
Qed.

Lemma to_array_not_True (t : value) : t <> VBool true -> to_array t <> VBool true.
Proof. destruct t; cbn; auto; discriminate. Qed.

Lemma no_True_kw_get (kw : kwargs) (k : string) :
  no_True kw -> kw_get kw k <> Some (VBool true).
Proof.
  intros H Hk. apply kw_get_In in Hk. unfold no_True in H.
  rewrite Forall_forall in H. exact (H _ Hk eq_refl).
Qed.

(** Apart from the entry of [X], [leftovers] adds only [False]. *)
Lemma leftovers_no_True (keys : list string) (kw : kwargs) :
  no_True (kw_del kw "X") -> no_True (kw_del (leftovers keys kw) "X").
Proof.
  revert kw. induction keys as [| x rest IH]; intros kw H; cbn; [exact H |].
  destruct (kw_get kw x); [exact (IH _ H) |]. apply IH.
  destruct (String.eqb_spec x "X") as [-> | Hx].
  - now rewrite kw_del_set_same.
  - rewrite kw_del_set_other by exact Hx. apply no_True_set; [discriminate | exact H].
Qed.

Ltac bind_inv H :=
  match type of H with
  | bind ?r _ = Ok _ =>
      let E := fresh "E" in
      destruct r eqn:E; cbn [bind] in H; [| discriminate H]
  end.

Section Frame.

Variable is64 : bool.
Variable memcheck : list (string * usage).
Variable square : bool.
Variable f : pyfun.

Lemma classify_kwargs_values (items kw' : kwargs) (need n : Z) (d : list target) :
  classify_kwargs is64 square items need = Ok (kw', n, d) ->
  kw' = map_values to_array items.
Proof.
  revert kw' need n d. induction items as [| [i x] rest IH];
    intros kw' need n d H; cbn in H.
  - now inversion H.
  - bind_inv H. destruct a as [n0 dt]. bind_inv H.
    destruct a as [[rest' need'] dts]. inversion H; subst.
    cbn. f_equal. exact (IH _ _ _ _ E0).
Qed.

Lemma convert_kwargs_no_True (items kw' : kwargs) (d : list target) :
  convert_kwargs items d = Ok kw' -> no_True items -> no_True kw'.
Proof.
  unfold no_True. revert kw' d. induction items as [| [i x] rest IH];
    intros kw' d H Hn; cbn in H.
  - inversion H. constructor.
  - inversion Hn; subst. destruct d as [| [| | dt] d]; try discriminate H.
    + bind_inv H. inversion H; subst. constructor; eauto.
    + destruct x; try discriminate H; bind_inv H; inversion H; subst;
        (constructor; [discriminate | eauto]).
Qed.

Lemma convert_kwargs_del_no_True (items kw' : kwargs) (d : list target) :
  convert_kwargs items d = Ok kw' ->
  no_True (kw_del items "X") -> no_True (kw_del kw' "X").
Proof.
  revert kw' d. induction items as [| [i x] rest IH];
    intros kw' d H Hn; cbn in H.
  - inversion H. constructor.
  - cbn [kw_del] in Hn. destruct d as [| [| | dt] d]; try discriminate H.
    + bind_inv H. inversion H; subst. cbn [kw_del].
      destruct (String.eqb "X" i).
      * exact (convert_kwargs_no_True _ _ _ E Hn).
      * inversion Hn; subst. constructor; [assumption | eapply IH; eauto].
    + destruct x; try discriminate H; bind_inv H; inversion H; subst;
        cbn [kw_del];
        (destruct (String.eqb "X" i);
         [ exact (convert_kwargs_no_True _ _ _ E Hn)
         | inversion Hn; subst; constructor; [discriminate | eapply IH; eauto] ]).
Qed.

Lemma convert_kwargs_keeps_bool (items kw' : kwargs) (d : list target)
    (k : string) (b : bool) :
  convert_kwargs items d = Ok kw' ->
  kw_get items k = Some (VBool b) -> kw_get kw' k = Some (VBool b).
Proof.
  revert kw' d. induction items as [| [i x] rest IH];
    intros kw' d H Hk; cbn in H; cbn [kw_get] in Hk.
  - discriminate Hk.
  - destruct d as [| [| | dt] d]; try discriminate H.
    + bind_inv H. inversion H; subst. cbn [kw_get].
      destruct (String.eqb k i); [exact Hk | eapply IH; eauto].
    + destruct x; try discriminate H; bind_inv H; inversion H; subst;
        cbn [kw_get];
        (destruct (String.eqb k i); [discriminate Hk | eapply IH; eauto]).
Qed.

Lemma positional_booleans_keeps_bool (args : list value) (i : nat)
    (kw kw1 : kwargs) (y y1 : Z) (dup : list bool) (k : string) :
  positional_booleans memcheck i args kw y = Ok (kw1, y1, dup) ->
  (exists b, kw_get kw k = Some (VBool b)) ->
  exists b, kw_get kw1 k = Some (VBool b).
Proof.
  revert i kw kw1 y y1 dup. induction args as [| x rest IH];
    intros i kw kw1 y y1 dup H Hk; cbn in H.
  - inversion H; subst. exact Hk.
  - destruct (is_bool x) eqn:Hx.
    + destruct (nth_error (memory_keys memcheck) i) as [key |];
        [| discriminate H].
      bind_inv H. destruct a as [[kw2 y2] dup2]. inversion H; subst.
      apply (IH _ _ _ _ _ _ E).
      destruct (String.eqb_spec key k) as [-> | Hne].
      * rewrite kw_get_set_same. destruct x; try discriminate Hx. now eexists.
      * now rewrite kw_get_set_other.
    + bind_inv H. destruct a as [[kw2 y2] dup2]. inversion H; subst.
      exact (IH _ _ _ _ _ _ E Hk).
Qed.

End Frame.

Ltac bind_inv_as H v E :=
  match type of H with
  | bind ?r _ = Ok _ =>
      destruct r as [v |] eqn:E; cbn [bind] in H; [| discriminate H]
  end.

(** ** Boolean keywords when [X] is resolved [True] *)

(** C9: when line 162 takes its first branch and the call reaches [f],
    no keyword that [f] receives is [True]; a boolean keyword of the
    caller other than [X], memory key or not, arrives as [False]. *)
Theorem booleans_False_when_X_is_True
    (is64 : bool) (available : nat -> Z) (memcheck : list (string * usage))
    (square : bool) (f : pyfun) (args : list value) (kw : kwargs)
    (a : accounted) (otherYes : Z) (args' : list value) (kw' : kwargs)
    (Hacc : accounting is64 memcheck square f args kw = Ok a)
    (Hyes : otherYes_of memcheck f args kw = Ok otherYes)
    (Hbranch : x_branch memcheck otherYes = true)
    (Hprep : prepare a = Ok (args', kw')) :
  no_True kw'
  /\ (forall k, kw_get kw' k <> Some (VBool true))
  /\ (forall k b, k <> "X" -> kw_get kw k = Some (VBool b) ->
                  kw_get kw' k = Some (VBool false))
  /\ (forall w w', admission available (acc_need a) w = (Ok tt, w') ->
        wrapper is64 available memcheck square f args kw w
        = (delegate f args' kw', w')).
Proof.
  pose proof Hacc as Hacc0.
  unfold accounting in Hacc.
  bind_inv_as Hacc X EX.
  bind_inv_as Hacc r1 Eres. destruct r1 as [kwC dup].
  bind_inv_as Hacc r2 Eargs. destruct r2 as [[need1 dtypes1] X_dtype].
  bind_inv_as Hacc r3 Ekw. destruct r3 as [[kwD need2] dtypes2].
  bind_inv_as Hacc cost Ecost.
  injection Hacc as <-.
  unfold resolve_flags in Eres.
  bind_inv_as Eres r4 Epos. destruct r4 as [[kw1 yes1] dup1].
  bind_inv_as Eres y Enames.
  injection Eres as <- <-.
  unfold otherYes_of in Hyes. rewrite Epos in Hyes. cbn [bind] in Hyes.
  rewrite Enames in Hyes. injection Hyes as ->.
  unfold prepare in Hprep. cbn [acc_args acc_kwargs acc_new_dtypes acc_duplicate] in Hprep.
  bind_inv_as Hprep r5 Eca. destruct r5 as [args'' d].
  bind_inv_as Hprep kwE Eck.
  unfold clean_up in Hprep.
  destruct (existsb (fun b => b) (tl dup1)) eqn:Edup; [discriminate Hprep |].
  injection Hprep as <- <-.
  apply classify_kwargs_values in Ekw. subst kwD.
  assert (HB : update_X memcheck kw1 otherYes
               = kw_set (map_values set_False kw1) "X" (VBool true)).
  { unfold update_X. now rewrite Hbranch. }
  assert (Hclean : no_True (kw_del kwE "X")).
  { eapply convert_kwargs_del_no_True; [exact Eck |].
    rewrite kw_del_map_values.
    apply no_True_map_values; [exact to_array_not_True |].
    apply leftovers_no_True. rewrite HB, kw_del_set_same.
    apply no_True_del, no_True_set_False. }
  split; [exact Hclean |].
  split; [intros k; apply no_True_kw_get; exact Hclean |].
  split.
  - intros k b Hk Hget.
    rewrite kw_get_del_other by exact Hk.
    eapply convert_kwargs_keeps_bool; [exact Eck |].
    rewrite kw_get_map_values, kw_get_leftovers, HB.
    rewrite kw_get_set_other by congruence.
    rewrite kw_get_map_values.
    destruct (positional_booleans_keeps_bool memcheck _ _ _ _ _ _ _ k Epos
                (ex_intro _ b Hget)) as [b' ->].
    reflexivity.
  - intros w w' Hadm. unfold wrapper. rewrite Hacc0. cbn [acc_need].
    cbn [acc_need] in Hadm. rewrite Hadm.
    unfold prepare.
    cbn [acc_args acc_kwargs acc_new_dtypes acc_duplicate].
    rewrite Eca. cbn [bind]. rewrite Eck. cbn [bind].
    unfold clean_up. rewrite Edup. reflexivity.
Qed.

Lemma booleans_False_when_X_is_True_witness :
  wrapper true (reports 0) memcheck_X_U false f_X_U
    [VArray float32_2x2] [("U", VBool true)] 0
  = (delegate f_X_U [VArray float32_2x2] [("U", VBool false)], 0%nat)
  /\ kw_get [("U", VBool false)] "U" = Some (VBool false).
Proof.
  pose proof (booleans_False_when_X_is_True true (reports 0) memcheck_X_U
                false f_X_U [VArray float32_2x2] [("U", VBool true)]
                (mk_accounted [VArray float32_2x2]
                   [("U", VBool false); ("X", VBool true)] [false]
                   [NoClassification; NoClassification; NoClassification] 0)
                1 [VArray float32_2x2] [("U", VBool false)]
                eq_refl eq_refl eq_refl eq_refl) as H.
  destruct H as (_ & _ & HU & Hcall).
  split.
  - apply Hcall. reflexivity.
  - apply (HU "U" true); [discriminate | reflexivity].
Defined.

(** * Further properties of the estimator *)

Lemma memory_usage_cases (key : string) (u : usage) :
  memory_usage key = Some u ->
  u = usage_full \/ u = usage_same \/ u = usage_triu \/ u = usage_squared
  \/ u = usage_columns.
Proof.
  unfold memory_usage.
  repeat match goal with
         | |- context [if ?b then _ else _] => destruct b
         end; intros H; inversion H; auto 6.
Qed.

Lemma usage_monotone (key : string) (u : usage) (n p n' p' : Z) :
  memory_usage key = Some u ->
  0 <= n <= n' -> 0 <= p <= p' -> 0 <= u n p <= u n' p'.
Proof.
  intros Hu Hn Hp.
  destruct (memory_usage_cases _ _ Hu) as [-> | [-> | [-> | [-> | ->]]]];
    unfold usage_full, usage_same, usage_triu, usage_squared, usage_columns,
      _min.
  - assert (n ^ 2 <= n' ^ 2) by nia. assert (p ^ 2 <= p' ^ 2) by nia.
    assert (0 <= n ^ 2) by nia. assert (0 <= p ^ 2) by nia.
    assert (n * p <= n' * p') by nia. lia.
  - nia.
  - destruct (Z.ltb_spec p n), (Z.ltb_spec p' n'); nia.
  - nia.
  - lia.
Qed.

(** X1: under every pattern of [memory_usage], the estimate of a shape with
    non-negative dimensions is non-negative and does not decrease when a
    dimension grows. *)
Theorem memory_monotone
    (key : string) (u : usage) (dt : dtype) (n p n' p' : Z)
    (Hkey : memory_usage key = Some u)
    (Hsize : 0 <= itemsize dt)
    (Hn : 0 <= n <= n') (Hp : 0 <= p <= p') :
  exists need need',
    memory [n; p] (Some dt) (Some u) = Ok need
    /\ memory [n'; p'] (Some dt) (Some u) = Ok need'
    /\ 0 <= need <= need'.
Proof.
  pose proof (usage_monotone key u n p n' p' Hkey Hn Hp) as Hm.
  eexists _, _. split; [reflexivity |]. split; [reflexivity |].
  cbn [np_dtype]. rewrite !shiftr_20. split.
  - apply Z.div_pos; [nia | lia].
  - apply Z.div_le_mono; [lia | nia].
Qed.

Lemma memory_monotone_witness :
  exists need need',
    memory [1000; 1000] (Some float32) (Some usage_triu) = Ok need
    /\ memory [2000; 1000] (Some float32) (Some usage_triu) = Ok need'
    /\ 0 <= need <= need'.
Proof.
  apply (memory_monotone "triu" usage_triu float32 1000 1000 2000 1000);
    [reflexivity | cbn; lia | lia | lia].
Defined.

(** X2: for a shape with non-negative dimensions the patterns are ordered:
    [triu] costs at most [same], [same] at most [full], and [full] at most
    [same] on twice the elements. *)
Theorem memory_patterns_ordered
    (dt : dtype) (n p : Z)
    (Hsize : 0 <= itemsize dt) (Hn : 0 <= n) (Hp : 0 <= p) :
  exists triu same full,
    memory [n; p] (Some dt) (memory_usage "triu") = Ok triu
    /\ memory [n; p] (Some dt) (memory_usage "same") = Ok same
    /\ memory [n; p] (Some dt) (memory_usage "full") = Ok full
    /\ triu <= same <= full
    /\ full <= Z.shiftr (2 * (n * p) * itemsize dt) 20.
Proof.
  eexists _, _, _. repeat (split; [reflexivity |]).
  cbn [np_dtype]. rewrite !shiftr_20.
  unfold usage_triu, usage_same, usage_full, _min.
  assert (Htriu : (if p <? n then p ^ 2 else n * p) <= n * p)
    by (destruct (Z.ltb_spec p n); nia).
  assert (Hmin : 0 <= Z.min (n ^ 2) (p ^ 2) <= n * p)
    by (destruct (Z.min_spec (n ^ 2) (p ^ 2)) as [[? ->] | [? ->]]; nia).
  repeat split; apply Z.div_le_mono; try lia; nia.
Qed.

Lemma memory_patterns_ordered_witness :
  exists triu same full,
    memory [3000; 1000] (Some float64) (memory_usage "triu") = Ok triu
    /\ memory [3000; 1000] (Some float64) (memory_usage "same") = Ok same
    /\ memory [3000; 1000] (Some float64) (memory_usage "full") = Ok full
    /\ triu <= same <= full
    /\ full <= Z.shiftr (2 * (3000 * 1000) * itemsize float64) 20.
Proof.
  apply (memory_patterns_ordered float64 3000 1000); cbn; lia.
Defined.

(** X3: on a square shape [(p, p)] the patterns [triu], [squared] and [same]
    give the same estimate, and [full] gives the estimate of twice as many
    elements. *)
Theorem memory_square_shape (dt : dtype) (p : Z) :
  memory [p; p] (Some dt) (memory_usage "triu")
  = memory [p; p] (Some dt) (memory_usage "squared")
  /\ memory [p; p] (Some dt) (memory_usage "squared")
     = memory [p; p] (Some dt) (memory_usage "same")
  /\ memory [p; p] (Some dt) (memory_usage "full")
     = Ok (Z.shiftr (2 * p ^ 2 * itemsize dt) 20).
Proof.
  cbn [memory_usage String.eqb Ascii.eqb Bool.eqb memory np_dtype].
  unfold usage_triu, usage_squared, usage_same, usage_full, _min.
  rewrite Z.ltb_irrefl, Z.min_id.
  repeat split; do 2 f_equal; nia.
Qed.

(** X4: with a pattern, [memory] returns exactly for shapes of one or two
    dimensions; a shape of any other length raises [TypeError], the lambda
    being called with the wrong number of arguments.  Without a pattern the
    estimate is 0 whatever the shape. *)
Theorem memory_shape_length
    (shape : list Z) (dt : option dtype) (u : usage) :
  ((exists need, memory shape dt (Some u) = Ok need)
   <-> (List.length shape = 1%nat \/ List.length shape = 2%nat))
  /\ ((exists msg, memory shape dt (Some u) = Raise TypeError msg)
      <-> (List.length shape <> 1%nat /\ List.length shape <> 2%nat))
  /\ memory shape dt None = Ok 0.
Proof.
  destruct shape as [| a [| b [| c rest]]]; cbn [memory List.length];
    (split; [| split; [| reflexivity]]); split;
    try (intros [x H]; discriminate H);
    try (intros [H | H]; discriminate H);
    try (intros [H1 H2]; congruence);
    try (intros _; eexists; reflexivity);
    try (intros _; auto; fail);
    try (intros _; split; discriminate).
Qed.

(** * Further properties of the classifier *)

Lemma dtype_eqb_eq (a b : dtype) : dtype_eqb a b = true -> a = b.
Proof.
  destruct a as [ka sa oa], b as [kb sb ob]. unfold dtype_eqb. cbn.
  intros H. apply andb_true_iff in H as [H Ho].
  apply andb_true_iff in H as [Hk Hs]. apply Z.eqb_eq in Hs. subst sb.
  assert (ka = kb) as ->.
  { destruct ka, kb; try discriminate Hk; try reflexivity;
      cbn in Hk; apply String.eqb_eq in Hk; now subst. }
  assert (oa = ob) as ->.
  { destruct oa, ob; try discriminate Ho; try reflexivity.
    cbn in Ho. apply Ascii.eqb_eq in Ho. now subst. }
  reflexivity.
Qed.

Lemma memory_raises (shape : list Z) (dt : option dtype) (u : option usage)
    (c : exn_class) (m : string) :
  memory shape dt u = Raise c m -> c = TypeError.
Proof.
  destruct u as [u |]; [| discriminate].
  destruct shape as [| s0 [| s1 [| s2 rest]]]; cbn [memory]; intros H;
    try discriminate H; now inversion H.
Qed.

(** X5: what [arg_process] returns.  A conversion is only ever to float32
    or to [maxFloat], for an array whose dtype differs from it, and its cost
    is the [same] estimate of the array's shape at the new width; every
    other answer has cost 0, and [False] is only given to an array of more
    than one dimension. *)
Theorem arg_process_result
    (is64 square : bool) (x : value) (n : Z) (t : target)
    (H : arg_process is64 x square = Ok (n, t)) :
  match t with
  | ConvertTo d =>
      exists a, x = VArray a
                /\ (d = float32 \/ d = maxFloat is64)
                /\ d <> a_dtype a
                /\ memory (a_shape a) (Some d) (memory_usage "same") = Ok n
  | NoConversion =>
      n = 0 /\ exists a, x = VArray a /\ (1 < List.length (a_shape a))%nat
  | NoClassification => n = 0
  end.
Proof.
  destruct x as [| b | z | s | a | m];
    try (injection H as <- <-; reflexivity).
  unfold arg_process in H. cbv zeta in H.
  destruct (1 <? Z.of_nat (List.length (a_shape a))) eqn:Hdim;
    [| injection H as <- <-; reflexivity].
  apply Z.ltb_lt in Hdim.
  destruct (square && negb (nth 0 (a_shape a) 0 =? nth 1 (a_shape a) 0));
    cbn [bind] in H; [discriminate H |].
  destruct (dtype_eqb (a_dtype a) float32 || dtype_eqb (a_dtype a) (maxFloat is64)
            || is_complexfloating (a_dtype a)).
  { injection H as <- <-. split; [reflexivity |]. exists a. split; [reflexivity | lia]. }
  assert (Hgo : forall d, (d = float32 \/ d = maxFloat is64) ->
            (if negb (dtype_eqb d (a_dtype a))
             then n0 <- memory (a_shape a) (Some d) (Some f_same_memory) ;;
                  Ok (n0, ConvertTo d)
             else Ok (0, NoClassification)) = Ok (n, t) ->
            match t with
            | ConvertTo d0 =>
                exists a0, VArray a = VArray a0
                  /\ (d0 = float32 \/ d0 = maxFloat is64)
                  /\ d0 <> a_dtype a0
                  /\ memory (a_shape a0) (Some d0) (memory_usage "same") = Ok n
            | NoConversion =>
                n = 0 /\ exists a0, VArray a = VArray a0
                                    /\ (1 < List.length (a_shape a0))%nat
            | NoClassification => n = 0
            end).
  { intros d Hd Hr. destruct (dtype_eqb d (a_dtype a)) eqn:Heq; cbn [negb] in Hr.
    - injection Hr as <- <-. reflexivity.
    - destruct (memory (a_shape a) (Some d) (Some f_same_memory)) as [n0 |] eqn:Hm;
        cbn [bind] in Hr; [| discriminate Hr].
      injection Hr as <- <-. exists a. repeat split; auto.
      intros ->. now rewrite dtype_eqb_refl in Heq. }
  destruct (is_integer (a_dtype a)); cbn [bind] in H.
  - apply (Hgo (if dtype_eqb (a_dtype a) uint64 || dtype_eqb (a_dtype a) int64
                then maxFloat is64 else float32)); [| exact H].
    destruct (dtype_eqb (a_dtype a) uint64 || dtype_eqb (a_dtype a) int64); auto.
  - destruct (dtype_eqb (a_dtype a) float16); cbn [bind] in H;
      [| discriminate H].
    apply (Hgo float32 (or_introl eq_refl) H).
Qed.

Lemma arg_process_result_witness :
  exists a, VArray (mk_ndarray [1000; 1000] float16 false) = VArray a
            /\ (float32 = float32 \/ float32 = maxFloat true)
            /\ float32 <> a_dtype a
            /\ memory (a_shape a) (Some float32) (memory_usage "same") = Ok 3.
Proof.
  exact (arg_process_result true false
           (VArray (mk_ndarray [1000; 1000] float16 false)) 3
           (ConvertTo float32) eq_refl).
Defined.

(** X6: the shape check comes first.  With [square] set, an array of more
    than one dimension whose first two dimensions differ raises
    [AssertionError] naming its shape, whatever its dtype. *)
Theorem arg_process_square_first
    (is64 : bool) (a : ndarray)
    (Hdim : (1 < List.length (a_shape a))%nat)
    (Hne : nth 0 (a_shape a) 0 <> nth 1 (a_shape a) 0) :
  arg_process is64 (VArray a) true
  = Raise AssertionError
      ("2D array is not square. Dimensions seen are " +++ str_tuple (a_shape a)
       +++ ".").
Proof.
  unfold arg_process.
  replace (1 <? Z.of_nat (List.length (a_shape a))) with true
    by (symmetry; apply Z.ltb_lt; lia).
  apply Z.eqb_neq in Hne. rewrite Hne. reflexivity.
Qed.

Lemma arg_process_square_first_witness :
  arg_process true (VArray (mk_ndarray [2; 3] bool_ false)) true
  = Raise AssertionError "2D array is not square. Dimensions seen are (2, 3).".
Proof.
  apply (arg_process_square_first true (mk_ndarray [2; 3] bool_ false));
    cbn; [lia | discriminate].
Defined.

(** X7: [arg_process] raises only for an array of more than one dimension;
    the error is [AssertionError] when [square] is set and the first two
    dimensions differ, and [TypeError] in every other case. *)
Theorem arg_process_errors
    (is64 square : bool) (x : value) (c : exn_class) (m : string)
    (H : arg_process is64 x square = Raise c m) :
  exists a, x = VArray a
            /\ (1 < List.length (a_shape a))%nat
            /\ ((c = AssertionError /\ square = true
                 /\ nth 0 (a_shape a) 0 <> nth 1 (a_shape a) 0)
                \/ (c = TypeError
                    /\ (square = false
                        \/ nth 0 (a_shape a) 0 = nth 1 (a_shape a) 0))).
Proof.
  destruct x as [| b | z | s | a | mm]; try discriminate H.
  unfold arg_process in H. cbv zeta in H.
  exists a. split; [reflexivity |].
  destruct (1 <? Z.of_nat (List.length (a_shape a))) eqn:Hdim;
    [| discriminate H].
  apply Z.ltb_lt in Hdim. split; [lia |].
  assert (Hdtype :
            (if dtype_eqb (a_dtype a) float32
                || dtype_eqb (a_dtype a) (maxFloat is64)
                || is_complexfloating (a_dtype a)
             then Ok (0, NoConversion)
             else
               dt <- (if is_integer (a_dtype a)
                      then Ok (if dtype_eqb (a_dtype a) uint64
                                  || dtype_eqb (a_dtype a) int64
                               then maxFloat is64 else float32)
                      else if dtype_eqb (a_dtype a) float16 then Ok float32
                      else Raise TypeError
                             ("Data type of " +++ str_dtype (a_dtype a)
                              +++ " is not a numerical type.")) ;;
               if negb (dtype_eqb dt (a_dtype a))
               then n <- memory (a_shape a) (Some dt) (Some f_same_memory) ;;
                    Ok (n, ConvertTo dt)
               else Ok (0, NoClassification)) = Raise c m ->
            c = TypeError).
  { clear H. intros H. destruct (_ || _ || _); [discriminate H |].
    destruct (is_integer (a_dtype a)); cbn [bind] in H.
    - destruct (negb _); [| discriminate H].
      destruct (memory _ _ _) eqn:Hm; cbn [bind] in H; [discriminate H |].
      inversion H; subst. exact (memory_raises _ _ _ _ _ Hm).
    - destruct (dtype_eqb (a_dtype a) float16); cbn [bind] in H;
        [| now inversion H].
      destruct (negb _); [| discriminate H].
      destruct (memory _ _ _) eqn:Hm; cbn [bind] in H; [discriminate H |].
      inversion H; subst. exact (memory_raises _ _ _ _ _ Hm). }
  destruct square; cbn [andb] in H.
  - destruct (Z.eqb_spec (nth 0 (a_shape a) 0) (nth 1 (a_shape a) 0)) as [He | He];
      cbn [negb bind] in H.
    + right. split; [exact (Hdtype H) | auto].
    + left. inversion H. auto.
  - cbn [bind] in H. right. split; [exact (Hdtype H) | auto].
Qed.

Lemma arg_process_errors_witness :
  exists a, VArray (mk_ndarray [2; 2] bool_ false) = VArray a
            /\ (1 < List.length (a_shape a))%nat
            /\ ((TypeError = AssertionError /\ true = true
                 /\ nth 0 (a_shape a) 0 <> nth 1 (a_shape a) 0)
                \/ (TypeError = TypeError
                    /\ (true = false
                        \/ nth 0 (a_shape a) 0 = nth 1 (a_shape a) 0))).
Proof.
  exact (arg_process_errors true true (VArray (mk_ndarray [2; 2] bool_ false))
           TypeError "Data type of bool is not a numerical type." eq_refl).
Defined.

Lemma integer_is_no_float (is64 : bool) (d : dtype) :
  is_integer d = true ->
  dtype_eqb d float32 = false /\ dtype_eqb d (maxFloat is64) = false
  /\ is_complexfloating d = false
  /\ dtype_eqb float32 d = false /\ dtype_eqb (maxFloat is64) d = false.
Proof.
  destruct d as [[] sz o]; cbn; try discriminate; intros _;
    destruct is64; repeat split; reflexivity.
Qed.

(** The conversion step of [arg_process], for an integer dtype or float16. *)
Lemma arg_process_convertible (is64 square : bool) (a : ndarray) :
  (1 < List.length (a_shape a))%nat ->
  (square = false \/ nth 0 (a_shape a) 0 = nth 1 (a_shape a) 0) ->
  is_integer (a_dtype a) = true \/ a_dtype a = float16 ->
  let dt := if is_integer (a_dtype a)
            then if dtype_eqb (a_dtype a) uint64 || dtype_eqb (a_dtype a) int64
                 then maxFloat is64 else float32
            else float32 in
  arg_process is64 (VArray a) square
  = n <- memory (a_shape a) (Some dt) (Some f_same_memory) ;; Ok (n, ConvertTo dt).
Proof.
  intros Hdim Hsquare Hd. cbv zeta. unfold arg_process.
  replace (1 <? Z.of_nat (List.length (a_shape a))) with true
    by (symmetry; apply Z.ltb_lt; lia).
  replace (square && negb (nth 0 (a_shape a) 0 =? nth 1 (a_shape a) 0))
    with false.
  2: { destruct Hsquare as [-> | ->]; [reflexivity |].
       now rewrite Z.eqb_refl, andb_false_r. }
  cbn [bind]. destruct Hd as [Hint | H16].
  - destruct (integer_is_no_float is64 _ Hint) as (E1 & E2 & E3 & E4 & E5).
    rewrite E1, E2, E3, Hint. cbn [orb bind].
    destruct (dtype_eqb (a_dtype a) uint64 || dtype_eqb (a_dtype a) int64);
      [rewrite E5 | rewrite E4]; reflexivity.
  - rewrite H16. destruct is64; reflexivity.
Qed.

(** X8: a 2-D float16 array, or a 2-D integer array that is neither int64
    nor uint64, is to be converted to float32, on either platform, at the
    cost of 4 bytes per element; this needs [square] off or a square
    array. *)
Theorem arg_process_to_float32
    (is64 square one : bool) (n p : Z) (d : dtype)
    (Hsquare : square = false \/ n = p)
    (Hd : d = float16
          \/ (is_integer d = true /\ dtype_eqb d int64 = false
              /\ dtype_eqb d uint64 = false)) :
  arg_process is64 (VArray (mk_ndarray [n; p] d one)) square
  = Ok (Z.shiftr (n * p * 4) 20, ConvertTo float32).
Proof.
  rewrite arg_process_convertible; cbn [a_shape a_dtype List.length nth].
  - destruct Hd as [-> | (Hint & H64 & Hu64)].
    + reflexivity.
    + rewrite Hint, H64, Hu64. reflexivity.
  - lia.
  - exact Hsquare.
  - destruct Hd as [-> | (Hint & _)]; auto.
Qed.

Lemma arg_process_to_float32_witness :
  arg_process true (VArray (mk_ndarray [1024; 1024] int32 false)) true
  = Ok (4, ConvertTo float32)
  /\ arg_process false (VArray (mk_ndarray [512; 1024] float16 false)) false
     = Ok (2, ConvertTo float32).
Proof.
  split.
  - apply (arg_process_to_float32 true true false 1024 1024 int32);
      [right; reflexivity | right; repeat split].
  - apply (arg_process_to_float32 false false false 512 1024 float16);
      [left; reflexivity | left; reflexivity].
Defined.

(** X9: an array of more than one dimension raises [TypeError] naming its
    dtype, once the shape check has passed, when the dtype equals neither
    float32 nor [maxFloat] nor float16, which are in the platform's byte
    order, and is neither complex nor a subtype of [np.integer], as the
    integers and timedelta64 are.  Such a dtype is a bool, a float or of a
    kind that is not numeric; a float among them has a width other than 2, 4
    and [maxFloat]'s bytes, or is in the other byte order.  That includes
    float64 on a 32-bit platform, and float32 in the other byte order. *)
Theorem arg_process_unsupported_dtype
    (is64 square : bool) (a : ndarray)
    (Hdim : (1 < List.length (a_shape a))%nat)
    (Hsquare : square = false \/ nth 0 (a_shape a) 0 = nth 1 (a_shape a) 0)
    (H32 : dtype_eqb (a_dtype a) float32 = false)
    (Hmax : dtype_eqb (a_dtype a) (maxFloat is64) = false)
    (Hcomplex : is_complexfloating (a_dtype a) = false)
    (Hint : is_integer (a_dtype a) = false)
    (H16 : dtype_eqb (a_dtype a) float16 = false) :
  arg_process is64 (VArray a) square
  = Raise TypeError
      ("Data type of " +++ str_dtype (a_dtype a) +++ " is not a numerical type.")
  /\ (kind (a_dtype a) = KBool \/ kind (a_dtype a) = KFloat
      \/ exists name, kind (a_dtype a) = KOther name)
  /\ (kind (a_dtype a) = KFloat ->
      (itemsize (a_dtype a) <> 2 /\ itemsize (a_dtype a) <> 4
       /\ itemsize (a_dtype a) <> (if is64 then 8 else 4))
      \/ order (a_dtype a) <> Native).
Proof.
  split; [| split].
  - unfold arg_process.
    replace (1 <? Z.of_nat (List.length (a_shape a))) with true
      by (symmetry; apply Z.ltb_lt; lia).
    replace (square && negb (nth 0 (a_shape a) 0 =? nth 1 (a_shape a) 0))
      with false.
    2: { destruct Hsquare as [-> | ->]; [reflexivity |].
         now rewrite Z.eqb_refl, andb_false_r. }
    cbn [bind]. rewrite H32, Hmax, Hcomplex, Hint, H16. reflexivity.
  - unfold is_integer, is_complexfloating in Hint, Hcomplex.
    destruct (kind (a_dtype a)); try discriminate; eauto.
  - intros Hk. destruct (a_dtype a) as [k sz o]. cbn in Hk |- *. subst k.
    destruct o as [| c]; [| right; discriminate]. left.
    unfold dtype_eqb in H32, Hmax, H16.
    cbn [kind itemsize order float32 float16 dkind_eqb byteorder_eqb andb]
      in H32, H16.
    rewrite andb_true_r in H32, H16.
    apply Z.eqb_neq in H32, H16. repeat split; try assumption.
    destruct is64; cbn in Hmax; rewrite andb_true_r in Hmax;
      apply Z.eqb_neq in Hmax; exact Hmax.
Qed.

Lemma arg_process_unsupported_dtype_witness :
  arg_process false (VArray (mk_ndarray [2; 2] float64 false)) false
  = Raise TypeError "Data type of float64 is not a numerical type."
  /\ arg_process true (VArray (mk_ndarray [2; 2] bool_ false)) true
     = Raise TypeError "Data type of bool is not a numerical type."
  /\ arg_process true (VArray (mk_ndarray [2; 2] float32_swapped false)) false
     = Raise TypeError "Data type of >f4 is not a numerical type.".
Proof.
  split; [| split].
  - apply (arg_process_unsupported_dtype false false
             (mk_ndarray [2; 2] float64 false));
      try reflexivity; [cbn; lia | left; reflexivity].
  - apply (arg_process_unsupported_dtype true true
             (mk_ndarray [2; 2] bool_ false));
      try reflexivity; [cbn; lia | right; reflexivity].
  - apply (arg_process_unsupported_dtype true false
             (mk_ndarray [2; 2] float32_swapped false));
      try reflexivity; [cbn; lia | left; reflexivity].
Defined.

(** A 2-D timedelta64 array is a subtype of [np.integer] for line 65 and is
    to be converted to float32. *)
Lemma arg_process_timedelta64 :
  arg_process true (VArray (mk_ndarray [2; 2] timedelta64_s false)) false
  = Ok (0, ConvertTo float32).
Proof. reflexivity. Qed.



(** * Further properties of [process] and of the wrapper *)




(** X12: the argument checks, in their order.  A call without positional
    arguments raises [IndexError], whatever its keywords; so does a call
    with more arguments than [f] has parameters; then a first argument that
    is an [np.matrix] raises [TypeError], the assignment to the tuple
    [args], and one that is no array at all raises [IndexError].  None of
    these calls samples the available memory. *)
Theorem wrapper_argument_checks
    (is64 : bool) (available : nat -> Z) (memcheck : list (string * usage))
    (square : bool) (f : pyfun) (args : list value) (kw : kwargs) (w : nat) :
  (args = [] ->
   wrapper is64 available memcheck square f args kw w
   = (Raise IndexError "Function needs >= 1 function arguments.", w))
  /\ (args <> [] -> len (parameters f) < len args + len kw ->
      wrapper is64 available memcheck square f args kw w
      = (Raise IndexError
           ("Function has too many inputs. Only " +++ str_Z (len (parameters f))
            +++ " is needed."), w))
  /\ (forall x rest,
        args = x :: rest -> len args + len kw <= len (parameters f) ->
        match x with
        | VArray _ => True
        | VMatrix _ =>
            wrapper is64 available memcheck square f args kw w
            = (Raise TypeError tuple_assign_msg, w)
        | _ =>
            wrapper is64 available memcheck square f args kw w
            = (Raise IndexError
                 "First argument is not a 2D array. Must be an array.", w)
        end).
Proof.
  split; [| split].
  - intros ->. unfold wrapper, accounting, check_arguments.
    replace ((len (@nil value) + len kw =? 0) || (len (@nil value) =? 0))
      with true by (now rewrite orb_true_r).
    reflexivity.
  - intros Hne Hmany. unfold wrapper, accounting, check_arguments.
    destruct args as [| x rest]; [contradiction |].
    assert (Hl : 0 < len (x :: rest)) by (unfold len; cbn; lia).
    assert (HL : 0 <= len kw) by (unfold len; lia).
    replace (len (x :: rest) + len kw =? 0) with false
      by (symmetry; apply Z.eqb_neq; lia).
    replace (len (x :: rest) =? 0) with false
      by (symmetry; apply Z.eqb_neq; lia).
    apply Z.ltb_lt in Hmany. cbn [orb]. rewrite Hmany. reflexivity.
  - intros x rest -> Hfew.
    assert (Hl : 0 < len (x :: rest)) by (unfold len; cbn; lia).
    assert (HL : 0 <= len kw) by (unfold len; lia).
    assert (Hchk : forall r : result ndarray,
              (if (len (x :: rest) + len kw =? 0) || (len (x :: rest) =? 0)
               then Raise IndexError "Function needs >= 1 function arguments."
               else if len (parameters f) <? len (x :: rest) + len kw
                    then Raise IndexError
                           ("Function has too many inputs. Only "
                            +++ str_Z (len (parameters f)) +++ " is needed.")
                    else r) = r).
    { intros r.
      replace (len (x :: rest) + len kw =? 0) with false
        by (symmetry; apply Z.eqb_neq; lia).
      replace (len (x :: rest) =? 0) with false
        by (symmetry; apply Z.eqb_neq; lia).
      apply Z.ltb_ge in Hfew. cbn [orb]. now rewrite Hfew. }
    destruct x; try exact I;
      unfold wrapper, accounting, check_arguments; rewrite Hchk; reflexivity.
Qed.

(** X13: a call samples the available memory at most once, and does so
    exactly when lines 116-213 have completed with a positive [need]; a call
    rejected earlier, or one that needs nothing, leaves it unread. *)
Theorem wrapper_samples_memory
    (is64 : bool) (available : nat -> Z) (memcheck : list (string * usage))
    (square : bool) (f : pyfun) (args : list value) (kw : kwargs) (w : nat) :
  snd (wrapper is64 available memcheck square f args kw w)
  = match accounting is64 memcheck square f args kw with
    | Ok a => if 0 <? acc_need a then S w else w
    | Raise _ _ => w
    end
  /\ (snd (wrapper is64 available memcheck square f args kw w) = S w
      <-> exists a, accounting is64 memcheck square f args kw = Ok a
                    /\ 0 < acc_need a).
Proof.
  assert (H : snd (wrapper is64 available memcheck square f args kw w)
              = match accounting is64 memcheck square f args kw with
                | Ok a => if 0 <? acc_need a then S w else w
                | Raise _ _ => w
                end).
  { unfold wrapper, admission.
    destruct (accounting is64 memcheck square f args kw) as [a | c m];
      [| reflexivity].
    destruct (0 <? acc_need a); [| reflexivity].
    destruct (free_MB (available w)) as [free | c m]; cbn [bind];
      [destruct (free <? acc_need a) |]; reflexivity. }
  split; [exact H |]. rewrite H.
  destruct (accounting is64 memcheck square f args kw) as [a | c m].
  - destruct (Z.ltb_spec 0 (acc_need a)); split.
    + intros _. now exists a.
    + reflexivity.
    + intros Hw. exfalso. clear - Hw. induction w; [discriminate | now injection Hw].
    + intros (a' & Ha & Hpos). injection Ha as <-. lia.
  - split.
    + intros Hw. exfalso. clear - Hw. induction w; [discriminate | now injection Hw].
    + intros (a' & Ha & _). discriminate Ha.
Qed.

(** ** The steps of a call, taken apart *)

Lemma accounting_inv
    (is64 : bool) (memcheck : list (string * usage)) (square : bool)
    (f : pyfun) (args : list value) (kw : kwargs) (a : accounted) :
  accounting is64 memcheck square f args kw = Ok a ->
  exists X kw1 yes1 dup otherYes need1 dts1 X_dtype kwD need2 dts2 cost,
    check_arguments f args kw = Ok X
    /\ positional_booleans memcheck 0 args kw 0 = Ok (kw1, yes1, dup)
    /\ check_names f kw1 yes1 = Ok otherYes
    /\ classify_args is64 square 0 args 0 None = Ok (need1, dts1, X_dtype)
    /\ classify_kwargs is64 square
         (leftovers (memory_keys memcheck) (update_X memcheck kw1 otherYes))
         need1 = Ok (kwD, need2, dts2)
    /\ operation_cost memcheck kwD (a_shape X) X_dtype = Ok cost
    /\ a = mk_accounted args kwD dup (dts1 ++ dts2) (need2 + cost).
Proof.
  intros Hacc. unfold accounting in Hacc.
  bind_inv_as Hacc X EX.
  bind_inv_as Hacc r1 Eres. destruct r1 as [kwC dup].
  bind_inv_as Hacc r2 Eargs. destruct r2 as [[need1 dts1] X_dtype].
  bind_inv_as Hacc r3 Ekw. destruct r3 as [[kwD need2] dts2].
  bind_inv_as Hacc cost Ecost.
  injection Hacc as <-.
  unfold resolve_flags in Eres.
  bind_inv_as Eres r4 Epos. destruct r4 as [[kw1 yes1] dup1].
  bind_inv_as Eres y Enames.
  injection Eres as <- <-.
  exists X, kw1, yes1, dup1, y, need1, dts1, X_dtype, kwD, need2, dts2, cost.
  repeat split; assumption.
Qed.

Lemma prepare_inv (a : accounted) (args' : list value) (kw' : kwargs) :
  prepare a = Ok (args', kw') ->
  exists d kwE,
    convert_args (acc_args a) (acc_new_dtypes a) = Ok (args', d)
    /\ convert_kwargs (acc_kwargs a) d = Ok kwE
    /\ existsb (fun b => b) (tl (acc_duplicate a)) = false
    /\ kw' = kw_del kwE "X".
Proof.
  intros H. unfold prepare in H.
  bind_inv_as H r Eca. destruct r as [args'' d].
  bind_inv_as H kwE Eck. unfold clean_up in H.
  destruct (existsb (fun b => b) (tl (acc_duplicate a))) eqn:Edup;
    [discriminate H |].
  injection H as <- <-. exists d, kwE. repeat split; assumption.
Qed.

Lemma positional_booleans_duplicate
    (memcheck : list (string * usage)) (args : list value) (i : nat)
    (kw kw1 : kwargs) (y y1 : Z) (dup : list bool) :
  positional_booleans memcheck i args kw y = Ok (kw1, y1, dup) ->
  dup = map is_bool args.
Proof.
  revert i kw kw1 y y1 dup. induction args as [| x rest IH];
    intros i kw kw1 y y1 dup H; cbn [positional_booleans] in H.
  - now injection H as <- <- <-.
  - destruct (is_bool x) eqn:Hx.
    + destruct (nth_error (memory_keys memcheck) i); [| discriminate H].
      bind_inv_as H r E. destruct r as [[kw2 y2] dup2].
      injection H as <- <- <-. cbn [map]. rewrite Hx. f_equal.
      exact (IH _ _ _ _ _ _ E).
    + bind_inv_as H r E. destruct r as [[kw2 y2] dup2].
      injection H as <- <- <-. cbn [map]. rewrite Hx. f_equal.
      exact (IH _ _ _ _ _ _ E).
Qed.

Lemma positional_booleans_none
    (memcheck : list (string * usage)) (args : list value) (i : nat)
    (kw : kwargs) (y : Z) :
  Forall (fun x => is_bool x = false) args ->
  positional_booleans memcheck i args kw y
  = Ok (kw, y, map (fun _ => false) args).
Proof.
  intros H. revert i. induction H as [| x rest Hx Hrest IH]; intros i;
    cbn [positional_booleans map]; [reflexivity |].
  rewrite Hx, IH. reflexivity.
Qed.

(** The positional arguments after the first, as [classify_args] sees them. *)
Lemma classify_args_tail
    (is64 square : bool) (args : list value) (i : nat)
    (need need' : Z) (X_dtype X_dtype' : option dtype) (dts : list target) :
  classify_args is64 square (S i) args need X_dtype = Ok (need', dts, X_dtype') ->
  X_dtype' = X_dtype
  /\ Forall2 (fun x t => (forall m, x <> VMatrix m)
                         /\ exists n, arg_process is64 x square = Ok (n, t))
       args dts.
Proof.
  revert i need need' dts. induction args as [| x rest IH];
    intros i need need' dts H; cbn [classify_args] in H.
  - injection H as <- <- <-. split; [reflexivity | constructor].
  - bind_inv_as H u Em. bind_inv_as H r Ex. destruct r as [n dtype].
    bind_inv_as H r Er. destruct r as [[need2 dts2] Xd2].
    injection H as <- <- <-.
    destruct (IH _ _ _ _ Er) as [-> HF]. split; [reflexivity |].
    constructor; [| exact HF]. split.
    + intros m ->. discriminate Em.
    + now exists n.
Qed.

(** With as many entries as arguments in front, [convert_args] returns only
    if all of them are [None]; the arguments are then returned as they
    came. *)
Lemma convert_args_ok
    (args args' : list value) (dts1 dts2 rest : list target) :
  List.length dts1 = List.length args ->
  convert_args args (dts1 ++ dts2) = Ok (args', rest) ->
  args' = args /\ rest = dts2 /\ Forall (fun t => t = NoClassification) dts1.
Proof.
  revert args' dts1. induction args as [| x xs IH]; intros args' dts1 Hlen H.
  - destruct dts1; [| discriminate Hlen]. cbn in H. injection H as <- <-.
    repeat split. constructor.
  - destruct dts1 as [| t ts]; [discriminate Hlen |].
    cbn [app convert_args] in H. destruct t.
    + discriminate H.
    + bind_inv_as H r E. destruct r as [xs' d']. injection H as <- <-.
      destruct (IH xs' ts ltac:(now injection Hlen) E) as (-> & -> & HF).
      repeat split. constructor; [reflexivity | exact HF].
    + destruct x; discriminate H.
Qed.

Lemma classify_args_length
    (is64 square : bool) (args : list value) (i : nat)
    (need need' : Z) (X_dtype X_dtype' : option dtype) (dts : list target) :
  classify_args is64 square i args need X_dtype = Ok (need', dts, X_dtype') ->
  List.length dts = List.length args.
Proof.
  revert i need need' X_dtype dts. induction args as [| x rest IH];
    intros i need need' X_dtype dts H; cbn [classify_args] in H.
  - now injection H as <- <- <-.
  - bind_inv_as H u Em. bind_inv_as H r Ex. destruct r as [n dtype].
    destruct (match i with
              | O => match dtype, x with
                     | NoConversion, VArray a0 => (Some (a_dtype a0), NoClassification)
                     | ConvertTo d, _ => (Some d, dtype)
                     | _, _ => (None, dtype)
                     end
              | S _ => (X_dtype, dtype)
              end) as [Xd' dtype'].
    bind_inv_as H r Er. destruct r as [[need2 dts2] Xd2].
    injection H as <- <- <-. cbn [List.length]. f_equal.
    exact (IH _ _ _ _ _ Er).
Qed.

(** The first positional argument, as [classify_args] sees it. *)
Lemma classify_args_head
    (is64 square : bool) (x : value) (rest : list value)
    (need need' : Z) (X_dtype X_dtype' : option dtype) (dts : list target) :
  classify_args is64 square 0 (x :: rest) need X_dtype = Ok (need', dts, X_dtype') ->
  exists n dtype t ts Xd,
    arg_process is64 x square = Ok (n, dtype)
    /\ dts = t :: ts
    /\ (t, Xd) = match dtype, x with
                 | NoConversion, VArray a => (NoClassification, Some (a_dtype a))
                 | ConvertTo d, _ => (dtype, Some d)
                 | _, _ => (dtype, None)
                 end
    /\ classify_args is64 square 1 rest (need + n) Xd = Ok (need', ts, X_dtype').
Proof.
  intros H. cbn [classify_args] in H. cbn [bind] in H.
  bind_inv_as H r Ex. destruct r as [n dtype].
  exists n, dtype.
  destruct dtype as [| | d]; [destruct x | |];
    (bind_inv_as H r Er; destruct r as [[need2 dts2] Xd2];
     injection H as <- <- <-; eexists _, _, _; repeat split; eassumption).
Qed.

(** X14: whenever the wrapper calls [f], the positional arguments are the
    caller's own, unchanged.  The call gets that far only if the first
    argument needs no conversion and no later positional argument is a
    [bool], an [np.matrix] or an array that [arg_process] classifies: each
    of these ends in an error of the tuple [args]. *)
Theorem delegated_positionals_unchanged
    (is64 : bool) (memcheck : list (string * usage)) (square : bool)
    (f : pyfun) (args : list value) (kw : kwargs) (a : accounted)
    (args' : list value) (kw' : kwargs)
    (Hacc : accounting is64 memcheck square f args kw = Ok a)
    (Hprep : prepare a = Ok (args', kw')) :
  args' = args
  /\ (exists X n t,
        hd VNone args = VArray X
        /\ arg_process is64 (VArray X) square = Ok (n, t)
        /\ forall d, t <> ConvertTo d)
  /\ Forall (fun x => is_bool x = false
                      /\ (forall m, x <> VMatrix m)
                      /\ exists n, arg_process is64 x square
                                   = Ok (n, NoClassification))
       (tl args).
Proof.
  destruct (accounting_inv _ _ _ _ _ _ _ Hacc)
    as (X & kw1 & yes1 & dup & y & need1 & dts1 & Xd & kwD & need2 & dts2
        & cost & HX & Hpos & Hnames & Hargs & Hkw & Hcost & ->).
  destruct (prepare_inv _ _ _ Hprep) as (d & kwE & Hca & Hck & Hdup & ->).
  cbn [acc_args acc_new_dtypes acc_kwargs acc_duplicate] in *.
  destruct (convert_args_ok _ _ _ _ _ (classify_args_length _ _ _ _ _ _ _ _ _ Hargs) Hca)
    as (-> & -> & Hnone).
  split; [reflexivity |].
  assert (Hx : exists x rest, args = VArray x :: rest /\ X = x).
  { unfold check_arguments in HX.
    destruct (_ || _); [discriminate HX |].
    destruct (_ <? _); [discriminate HX |].
    destruct args as [| [] rest]; try discriminate HX.
    injection HX as <-. now eexists _, _. }
  destruct Hx as (x & rest & -> & ->).
  destruct (classify_args_head _ _ _ _ _ _ _ _ _ Hargs)
    as (n & dtype & t & ts & Xd' & Hx & -> & Ht & Hrest).
  inversion Hnone as [| t0 ts0 Ht0 Hts]; subst.
  split.
  - exists x, n, dtype. cbn [hd]. repeat split; [exact Hx |].
    intros d0 ->. discriminate Ht.
  - cbn [tl]. apply classify_args_tail in Hrest as [_ HF].
    apply positional_booleans_duplicate in Hpos. subst dup.
    cbn [map tl] in Hdup.
    clear - HF Hts Hdup. revert ts HF Hts. induction rest as [| z zs IH];
      intros ts HF Hts; [constructor |].
    inversion HF as [| z0 t0 zs0 ts0 [Hm [n Hz]] HF']; subst.
    inversion Hts; subst. cbn [map existsb] in Hdup.
    apply orb_false_iff in Hdup as [Hb Hdup].
    constructor; [| exact (IH Hdup _ HF' H2)].
    repeat split; [exact Hb | exact Hm | now exists n].
Qed.

Lemma delegated_positionals_unchanged_witness :
  exists X n t,
    hd VNone [VArray float32_2x2] = VArray X
    /\ arg_process true (VArray X) false = Ok (n, t)
    /\ forall d, t <> ConvertTo d.
Proof.
  exact (proj1 (proj2 (delegated_positionals_unchanged true memcheck_X_U false
                         f_X_U [VArray float32_2x2] [("U", VBool true)]
                         (mk_accounted [VArray float32_2x2]
                            [("U", VBool false); ("X", VBool true)] [false]
                            [NoClassification; NoClassification;
                             NoClassification] 0)
                         [VArray float32_2x2] [("U", VBool false)]
                         eq_refl eq_refl))).
Defined.

(** ** The keys of the keyword map *)

Lemma keys_In_set (kw : kwargs) (x k : string) (v : value) :
  In k (keys (kw_set kw x v)) <-> k = x \/ In k (keys kw).
Proof.
  induction kw as [| [y u] rest IH]; cbn.
  - intuition.
  - destruct (String.eqb_spec x y) as [-> | Hxy]; cbn.
    + intuition.
    + rewrite IH. intuition.
Qed.

Lemma keys_NoDup_set (kw : kwargs) (x : string) (v : value) :
  NoDup (keys kw) -> NoDup (keys (kw_set kw x v)).
Proof.
  induction kw as [| [y u] rest IH]; cbn; intros H.
  - constructor; [intros [] | constructor].
  - inversion H as [| y0 l Hy Hrest]; subst.
    destruct (String.eqb_spec x y) as [-> | Hxy]; cbn.
    + constructor; assumption.
    + constructor; [| exact (IH Hrest)].
      intros Hin. apply keys_In_set in Hin as [-> | Hin]; [congruence | auto].
Qed.

Lemma keys_map_values (g : value -> value) (kw : kwargs) :
  keys (map_values g kw) = keys kw.
Proof.
  induction kw as [| [y u] rest IH]; cbn; [reflexivity |]. f_equal. exact IH.
Qed.

Lemma kw_get_None (kw : kwargs) (k : string) :
  kw_get kw k = None <-> ~ In k (keys kw).
Proof.
  induction kw as [| [y u] rest IH]; cbn.
  - intuition.
  - destruct (String.eqb_spec k y) as [-> | Hky].
    + split; [discriminate | intros H; destruct H; now left].
    + rewrite IH. intuition congruence.
Qed.

Lemma keys_In_leftovers (ks : list string) (kw : kwargs) (k : string) :
  In k (keys (leftovers ks kw)) <-> In k (keys kw) \/ In k ks.
Proof.
  revert kw. induction ks as [| x rest IH]; intros kw; cbn [leftovers].
  - cbn. intuition.
  - destruct (kw_get kw x) as [v |] eqn:Ex.
    + rewrite IH. cbn. split; [intuition |].
      intros [H | [<- | H]]; auto. left.
      destruct (in_dec string_dec x (keys kw)) as [Hin | Hout]; [exact Hin |].
      apply kw_get_None in Hout. congruence.
    + rewrite IH, keys_In_set. cbn. intuition.
Qed.

Lemma keys_NoDup_leftovers (ks : list string) (kw : kwargs) :
  NoDup (keys kw) -> NoDup (keys (leftovers ks kw)).
Proof.
  revert kw. induction ks as [| x rest IH]; intros kw H; cbn [leftovers];
    [exact H |].
  destruct (kw_get kw x); [exact (IH _ H) |].
  apply IH, keys_NoDup_set, H.
Qed.

Lemma keys_convert_kwargs (items kw' : kwargs) (d : list target) :
  convert_kwargs items d = Ok kw' -> keys kw' = keys items.
Proof.
  revert kw' d. induction items as [| [i x] rest IH]; intros kw' d H;
    cbn [convert_kwargs] in H.
  - now injection H as <-.
  - destruct d as [| [| | dt] d]; try discriminate H.
    + bind_inv_as H r E. injection H as <-. cbn. f_equal. exact (IH _ _ E).
    + destruct x; try discriminate H; bind_inv_as H r E; injection H as <-;
        cbn; f_equal; exact (IH _ _ E).
Qed.

Lemma keys_In_del (kw : kwargs) (x k : string) :
  NoDup (keys kw) ->
  (In k (keys (kw_del kw x)) <-> In k (keys kw) /\ k <> x).
Proof.
  induction kw as [| [y u] rest IH]; cbn; intros H.
  - intuition.
  - inversion H as [| y0 l Hy Hrest]; subst.
    destruct (String.eqb_spec x y) as [-> | Hxy]; cbn.
    + split.
      * intros Hin. split; [now right | intros ->; contradiction].
      * intros [[<- | Hin] Hk]; [congruence | exact Hin].
    + rewrite (IH Hrest). intuition congruence.
Qed.

Lemma keys_NoDup_del (kw : kwargs) (x : string) :
  NoDup (keys kw) -> NoDup (keys (kw_del kw x)).
Proof.
  induction kw as [| [y u] rest IH]; cbn; intros H; [constructor |].
  inversion H as [| y0 l Hy Hrest]; subst.
  destruct (String.eqb_spec x y) as [-> | Hxy]; cbn; [exact Hrest |].
  constructor; [| exact (IH Hrest)].
  intros Hin. apply (keys_In_del _ _ _ Hrest) in Hin as [Hin _]. contradiction.
Qed.

Lemma positional_booleans_keys
    (memcheck : list (string * usage)) (args : list value) (i : nat)
    (kw kw1 : kwargs) (y y1 : Z) (dup : list bool) :
  positional_booleans memcheck i args kw y = Ok (kw1, y1, dup) ->
  (NoDup (keys kw) -> NoDup (keys kw1))
  /\ (forall k, In k (keys kw) -> In k (keys kw1))
  /\ (forall k, In k (keys kw1) ->
                In k (keys kw) \/ In k (memory_keys memcheck)).
Proof.
  revert i kw kw1 y y1 dup. induction args as [| x rest IH];
    intros i kw kw1 y y1 dup H; cbn [positional_booleans] in H.
  - injection H as <- <- <-. auto.
  - destruct (is_bool x).
    + destruct (nth_error (memory_keys memcheck) i) as [key |] eqn:Hkey;
        [| discriminate H].
      bind_inv_as H r E. destruct r as [[kw2 y2] dup2].
      injection H as <- <- <-.
      destruct (IH _ _ _ _ _ _ E) as (Hn & Hin & Hback).
      split; [| split].
      * intros Hnd. apply Hn, keys_NoDup_set, Hnd.
      * intros k Hk. apply Hin, keys_In_set. now right.
      * intros k Hk. destruct (Hback k Hk) as [Hs | Hm]; [| now right].
        apply keys_In_set in Hs as [-> | Hs]; [| now left].
        right. exact (nth_error_In _ _ Hkey).
    + bind_inv_as H r E. destruct r as [[kw2 y2] dup2].
      injection H as <- <- <-. exact (IH _ _ _ _ _ _ E).
Qed.

(** X15: the keywords [f] is called with.  For a call whose keyword names
    are distinct, [f] receives every keyword of the caller and every memory
    key of the decorator, each once, except [X], which it never receives. *)
Theorem delegated_keywords
    (is64 : bool) (memcheck : list (string * usage)) (square : bool)
    (f : pyfun) (args : list value) (kw : kwargs) (a : accounted)
    (args' : list value) (kw' : kwargs)
    (Hdict : NoDup (keys kw))
    (Hacc : accounting is64 memcheck square f args kw = Ok a)
    (Hprep : prepare a = Ok (args', kw')) :
  NoDup (keys kw')
  /\ kw_get kw' "X" = None
  /\ forall k, In k (keys kw')
               <-> k <> "X" /\ (In k (keys kw) \/ In k (memory_keys memcheck)).
Proof.
  destruct (accounting_inv _ _ _ _ _ _ _ Hacc)
    as (X & kw1 & yes1 & dup & y & need1 & dts1 & Xd & kwD & need2 & dts2
        & cost & HX & Hpos & Hnames & Hargs & Hkw & Hcost & ->).
  destruct (prepare_inv _ _ _ Hprep) as (d & kwE & Hca & Hck & Hdup & ->).
  cbn [acc_args acc_new_dtypes acc_kwargs acc_duplicate] in *.
  destruct (positional_booleans_keys _ _ _ _ _ _ _ _ Hpos)
    as (Hnd1 & Hin1 & Hback1).
  apply classify_kwargs_values in Hkw. subst kwD.
  assert (HkE : keys kwE
                = keys (leftovers (memory_keys memcheck)
                          (update_X memcheck kw1 y))).
  { rewrite (keys_convert_kwargs _ _ _ Hck). apply keys_map_values. }
  assert (HinX : forall k, In k (keys (update_X memcheck kw1 y))
                           <-> k = "X" \/ In k (keys kw1)).
  { intros k. unfold update_X. destruct (x_branch memcheck y);
      rewrite keys_In_set, ?keys_map_values; reflexivity. }
  assert (HndE : NoDup (keys kwE)).
  { rewrite HkE. apply keys_NoDup_leftovers. unfold update_X.
    destruct (x_branch memcheck y); apply keys_NoDup_set;
      rewrite ?keys_map_values; auto. }
  split; [exact (keys_NoDup_del _ _ HndE) |].
  assert (Hchar : forall k, In k (keys (kw_del kwE "X"))
            <-> k <> "X" /\ (In k (keys kw) \/ In k (memory_keys memcheck))).
  { intros k. rewrite (keys_In_del _ _ _ HndE), HkE, keys_In_leftovers, HinX.
    split.
    - intros [[[-> | Hk] | Hk] Hne]; [congruence | |]; split; auto.
    - intros [Hne [Hk | Hk]]; split; auto. }
  split; [| exact Hchar].
  apply kw_get_None. intros Hin. apply Hchar in Hin as [Hne _]. now apply Hne.
Qed.

Lemma delegated_keywords_witness :
  kw_get [("U", VBool false)] "X" = None.
Proof.
  exact (proj1 (proj2 (delegated_keywords true memcheck_X_U false f_X_U
                         [VArray float32_2x2] [("U", VBool true)]
                         (mk_accounted [VArray float32_2x2]
                            [("U", VBool false); ("X", VBool true)] [false]
                            [NoClassification; NoClassification;
                             NoClassification] 0)
                         [VArray float32_2x2] [("U", VBool false)]
                         ltac:(repeat constructor; cbn; intuition discriminate)
                         eq_refl eq_refl))).
Defined.

(** ** Keyword arguments on their way to [f] *)

Lemma check_arguments_head (f : pyfun) (args : list value) (kw : kwargs)
    (X : ndarray) :
  check_arguments f args kw = Ok X -> exists rest, args = VArray X :: rest.
Proof.
  unfold check_arguments. intros HX.
  destruct (_ || _); [discriminate HX |].
  destruct (_ <? _); [discriminate HX |].
  destruct args as [| [] rest]; try discriminate HX.
  injection HX as <-. now eexists.
Qed.

(** A call that reaches [f] has no positional boolean, so the loop of lines
    144-148 has left the keyword map and [otherYes] as they were. *)
Lemma no_shorthand_when_delegated
    (memcheck : list (string * usage)) (f : pyfun) (args : list value)
    (kw kw1 : kwargs) (yes1 : Z) (dup : list bool) (X : ndarray) :
  check_arguments f args kw = Ok X ->
  positional_booleans memcheck 0 args kw 0 = Ok (kw1, yes1, dup) ->
  existsb (fun b => b) (tl dup) = false ->
  kw1 = kw /\ yes1 = 0.
Proof.
  intros HX Hpos Hdup.
  destruct (check_arguments_head _ _ _ _ HX) as [rest ->].
  pose proof (positional_booleans_duplicate _ _ _ _ _ _ _ _ Hpos) as ->.
  cbn [map tl] in Hdup.
  assert (Hall : Forall (fun x => is_bool x = false) (VArray X :: rest)).
  { constructor; [reflexivity |]. clear - Hdup.
    induction rest as [| z zs IH]; [constructor |].
    cbn [map existsb] in Hdup. apply orb_false_iff in Hdup as [Hb Hdup].
    constructor; auto. }
  rewrite (positional_booleans_none memcheck _ 0 kw 0 Hall) in Hpos.
  now injection Hpos as <- <- _.
Qed.

Lemma classify_kwargs_spec
    (is64 square : bool) (items kw' : kwargs) (need n : Z) (dts : list target) :
  classify_kwargs is64 square items need = Ok (kw', n, dts) ->
  Forall2 (fun e t => exists n0, arg_process is64 (snd e) square = Ok (n0, t))
    kw' dts.
Proof.
  revert kw' need n dts. induction items as [| [i x] rest IH];
    intros kw' need n dts H; cbn [classify_kwargs] in H.
  - injection H as <- <- <-. constructor.
  - bind_inv_as H r Ex. destruct r as [n0 dtype].
    bind_inv_as H r Er. destruct r as [[rest' need'] dts'].
    injection H as <- <- <-. constructor; [| exact (IH _ _ _ _ Er)].
    now exists n0.
Qed.

Lemma convert_kwargs_spec
    (is64 square : bool) (items kw' : kwargs) (dts : list target)
    (k : string) (x : value) (n : Z) (t : target) :
  Forall2 (fun e t => exists n0, arg_process is64 (snd e) square = Ok (n0, t))
    items dts ->
  convert_kwargs items dts = Ok kw' ->
  kw_get items k = Some x ->
  arg_process is64 x square = Ok (n, t) ->
  kw_get kw' k = Some (converted x t).
Proof.
  intros HF. revert kw'. induction HF as [| [i y] t0 rest dts' [n0 Hy] HF IH];
    intros kw' Hc Hk Hx; cbn [kw_get convert_kwargs] in *.
  - discriminate Hk.
  - cbn [snd] in Hy. destruct t0 as [| | d0].
    + discriminate Hc.
    + bind_inv_as Hc r E. injection Hc as <-. cbn [kw_get].
      destruct (String.eqb k i).
      * injection Hk as ->. rewrite Hx in Hy. injection Hy as _ ->. reflexivity.
      * exact (IH _ eq_refl Hk Hx).
    + destruct y; try discriminate Hc; bind_inv_as Hc r E; injection Hc as <-;
        cbn [kw_get]; (destruct (String.eqb k i);
          [ injection Hk as <-; try discriminate Hy;
            rewrite Hx in Hy; injection Hy as _ ->; reflexivity
          | exact (IH _ eq_refl Hk Hx) ]).
Qed.

(** X16: a keyword argument of the caller that is not a [bool], under a key
    other than [X], reaches [f] as follows: an [np.matrix] as its array
    (flattened when it has one row), and an array for which [arg_process]
    names a dtype converted to that dtype; any other value as it came. *)
Theorem delegated_keyword_value
    (is64 : bool) (memcheck : list (string * usage)) (square : bool)
    (f : pyfun) (args : list value) (kw : kwargs) (a : accounted)
    (args' : list value) (kw' : kwargs)
    (k : string) (x : value) (n : Z) (t : target)
    (Hacc : accounting is64 memcheck square f args kw = Ok a)
    (Hprep : prepare a = Ok (args', kw'))
    (Hk : k <> "X")
    (Hget : kw_get kw k = Some x)
    (Hx : is_bool x = false)
    (Hclass : arg_process is64 (to_array x) square = Ok (n, t)) :
  kw_get kw' k = Some (converted (to_array x) t).
Proof.
  destruct (accounting_inv _ _ _ _ _ _ _ Hacc)
    as (X & kw1 & yes1 & dup & y & need1 & dts1 & Xd & kwD & need2 & dts2
        & cost & HX & Hpos & Hnames & Hargs & Hkw & Hcost & ->).
  destruct (prepare_inv _ _ _ Hprep) as (d & kwE & Hca & Hck & Hdup & ->).
  cbn [acc_args acc_new_dtypes acc_kwargs acc_duplicate] in *.
  destruct (no_shorthand_when_delegated _ _ _ _ _ _ _ _ HX Hpos Hdup)
    as [-> ->].
  destruct (convert_args_ok _ _ _ _ _
              (classify_args_length _ _ _ _ _ _ _ _ _ Hargs) Hca)
    as (_ & -> & _).
  pose proof (classify_kwargs_spec _ _ _ _ _ _ _ Hkw) as HF.
  apply classify_kwargs_values in Hkw. subst kwD.
  rewrite kw_get_del_other by exact Hk.
  apply (convert_kwargs_spec is64 square _ _ _ k (to_array x) n t HF Hck);
    [| exact Hclass].
  rewrite kw_get_map_values, kw_get_leftovers.
  assert (HU : kw_get (update_X memcheck kw y) k = Some x).
  { unfold update_X. destruct (x_branch memcheck y);
      rewrite kw_get_set_other by congruence;
      rewrite ?kw_get_map_values, Hget; [| reflexivity].
    cbn [option_map]. unfold set_False. now rewrite Hx. }
  now rewrite HU.
Qed.

Lemma delegated_keyword_value_witness :
  kw_get [("k", VArray (astype int64_2x2 float64))] "k"
  = Some (converted (to_array (VArray int64_2x2)) (ConvertTo float64)).
Proof.
  exact (delegated_keyword_value true memcheck_X_full false
           (f_X_k first_argument) [VArray float32_2x2]
           [("k", VArray int64_2x2)]
           (mk_accounted [VArray float32_2x2]
              [("k", VArray int64_2x2); ("X", VBool true)] [false]
              [NoClassification; ConvertTo float64; NoClassification] 0)
           [VArray float32_2x2] [("k", VArray (astype int64_2x2 float64))]
           "k" (VArray int64_2x2) 0 (ConvertTo float64)
           eq_refl eq_refl ltac:(discriminate) eq_refl eq_refl eq_refl).
Defined.

(** ** The cost of the operation *)



(** X18: the need of a call with one array and no keyword, under one memory
    key [X].  It is the cost of converting the array plus the pattern's
    estimate over the array's shape, taken at the width of the dtype the
    array is converted to, or of its own dtype when it needs no conversion,
    or of float64 when [arg_process] has not classified it, as for a 1-D
    array. *)
Theorem need_of_single_array
    (is64 : bool) (u : usage) (square : bool) (f : pyfun) (a : ndarray)
    (n : Z) (t : target)
    (Hparams : parameters f <> [])
    (Hclass : arg_process is64 (VArray a) square = Ok (n, t)) :
  need_of (accounting is64 [("X", u)] square f [VArray a] [])
  = (cost <- memory (a_shape a)
               (match t with
                | NoConversion => Some (a_dtype a)
                | ConvertTo d => Some d
                | NoClassification => None
                end) (Some u) ;;
     Ok (n + cost)).
Proof.
  unfold need_of, accounting.
  rewrite (check_arguments_single f a Hparams). cbn [bind].
  unfold resolve_flags.
  cbn [positional_booleans is_bool bind check_names].
  unfold update_X, x_branch. change (memory_length [("X", u)] - 1) with 0.
  cbn [Z.eqb orb map_values map kw_set]. 
  cbn [memory_keys map fst leftovers kw_get String.eqb Ascii.eqb Bool.eqb].
  cbn [classify_args bind]. rewrite Hclass. cbn [bind].
  destruct t as [| | d]; cbn [bind classify_kwargs to_array arg_process];
    cbn [operation_cost kw_get String.eqb Ascii.eqb Bool.eqb eq_True bind];
    rewrite ?Z.add_0_r;
    (destruct (memory (a_shape a) _ (Some u)) as [cost |]; reflexivity).
Qed.

Lemma need_of_single_array_witness :
  need_of (accounting true [("X", usage_same)] false f_X
             [VArray (mk_ndarray [1048576] float32 false)] []) = Ok 8
  /\ need_of (accounting true [("X", usage_same)] false f_X
                [VArray (mk_ndarray [1; 1048576] float32 false)] []) = Ok 4.
Proof.
  split.
  - exact (need_of_single_array true usage_same false f_X
             (mk_ndarray [1048576] float32 false) 0 NoClassification
             ltac:(discriminate) eq_refl).
  - exact (need_of_single_array true usage_same false f_X
             (mk_ndarray [1; 1048576] float32 false) 0 NoConversion
             ltac:(discriminate) eq_refl).
Defined.

(** * Further properties of the resolvers *)



(** X20: with [turbo] off the dtype does not matter: the test of line 291
    holds for every dtype that is not taken by line 289, and line 289 needs
    [turbo]; so an unbound resolver binds the [d] routine for a float32, a
    float64 and also for a complex array. *)
Theorem lapack_without_turbo_binds_double
    (_lapack : string -> option Lapack.routine) (name : string)
    (r : Lapack.routine) (args : list value) (kw : kwargs) (dtype : dtype)
    (Hdtype : Lapack.first_dtype args kw = Ok dtype)
    (Hd : _lapack ("d" +++ name) = Some r) :
  Lapack.routine_name (Lapack.mk_lapack name false Lapack.Unbound) dtype
  = "d" +++ name
  /\ Lapack.__call__ _lapack (Lapack.mk_lapack name false Lapack.Unbound)
       args kw
     = (Lapack.mk_lapack name false (Lapack.Routine r), r args kw).
Proof.
  assert (Hname : Lapack.routine_name
                    (Lapack.mk_lapack name false Lapack.Unbound) dtype
                  = "d" +++ name).
  { unfold Lapack.routine_name. cbn [Lapack.turbo Lapack.function negb].
    now rewrite andb_false_r, orb_true_r. }
  split; [exact Hname |].
  unfold Lapack.__call__. cbn [Lapack.f]. rewrite Hdtype, Hname, Hd.
  reflexivity.
Qed.

Lemma lapack_without_turbo_binds_double_witness :
  Lapack.__call__ getrf_only (Lapack.mk_lapack "getrf" false Lapack.Unbound)
    [VArray (mk_ndarray [2; 2] complex128 false)] []
  = (Lapack.mk_lapack "getrf" false
       (Lapack.Routine (fun _ _ => Ok (VStr "dgetrf"))), Ok (VStr "dgetrf")).
Proof.
  exact (proj2 (lapack_without_turbo_binds_double getrf_only "getrf"
                  (fun _ _ => Ok (VStr "dgetrf"))
                  [VArray (mk_ndarray [2; 2] complex128 false)] [] complex128
                  eq_refl eq_refl)).
Defined.

(** X21: a resolver whose [numba] name is found at construction is bound
    from the start, under that name; every call goes to the [numba] routine,
    with any arguments or none, and neither a dtype nor [_lapack] is looked
    at. *)
Theorem lapack_numba_override
    (_numba : string -> option Lapack.routine) (name alt : string)
    (turbo : bool) (r : Lapack.routine)
    (Halt : _numba alt = Some r) :
  Lapack.__init__ _numba name (Some alt) turbo
  = Lapack.mk_lapack alt turbo (Lapack.Routine r)
  /\ forall _lapack args kw,
       Lapack.__call__ _lapack (Lapack.__init__ _numba name (Some alt) turbo)
         args kw
       = (Lapack.__init__ _numba name (Some alt) turbo, r args kw).
Proof.
  unfold Lapack.__init__. rewrite Halt. split; reflexivity.
Qed.

Lemma lapack_numba_override_witness :
  Lapack.__call__ (fun _ => None)
    (Lapack.__init__ getrf_only "getrf" (Some "sgetrf") true) [] []
  = (Lapack.__init__ getrf_only "getrf" (Some "sgetrf") true,
     Ok (VStr "sgetrf")).
Proof.
  exact (proj2 (lapack_numba_override getrf_only "getrf" "sgetrf" true
                  (fun _ _ => Ok (VStr "sgetrf")) eq_refl)
           (fun _ => None) [] []).
Defined.

(** X22: a first call whose routine is missing from the module raises
    [AttributeError] and leaves the resolver holding the routine's name, a
    string: every later call, whatever its arguments and dtype, raises
    [TypeError].  This holds for [lapack] and for [blas]. *)
Theorem failed_resolution_is_permanent
    (_lapack _blas : string -> option Lapack.routine)
    (self : Lapack.lapack) (bself : Blas.blas)
    (args : list value) (kw : kwargs) (dtype : dtype)
    (Hdtype : Lapack.first_dtype args kw = Ok dtype) :
  (Lapack.f self = Lapack.Unbound ->
   _lapack (Lapack.routine_name self dtype) = None ->
   (exists msg,
       snd (Lapack.__call__ _lapack self args kw) = Raise AttributeError msg)
   /\ forall other args' kw',
        Lapack.__call__ other (fst (Lapack.__call__ _lapack self args kw))
          args' kw'
        = (fst (Lapack.__call__ _lapack self args kw),
           Raise TypeError "'str' object is not callable"))
  /\ (Blas.f bself = Lapack.Unbound ->
      _blas (Blas.routine_name bself dtype) = None ->
      (exists msg,
          snd (Blas.__call__ _blas bself args kw) = Raise AttributeError msg)
      /\ forall other args' kw',
           Blas.__call__ other (fst (Blas.__call__ _blas bself args kw))
             args' kw'
           = (fst (Blas.__call__ _blas bself args kw),
              Raise TypeError "'str' object is not callable")).
Proof.
  split; intros Hunbound Hnone.
  - unfold Lapack.__call__ at 1 3 4. rewrite Hunbound, Hdtype, Hnone.
    cbn [fst snd]. split; [eexists; reflexivity | reflexivity].
  - unfold Blas.__call__ at 1 3 4. rewrite Hunbound, Hdtype, Hnone.
    cbn [fst snd]. split; [eexists; reflexivity | reflexivity].
Qed.

Lemma failed_resolution_is_permanent_witness :
  Lapack.__call__ getrf_only
    (fst (Lapack.__call__ getrf_only
            (Lapack.__init__ (fun _ => None) "getrf" None true)
            [VArray (mk_ndarray [2; 2] complex64 false)] []))
    [VArray float32_2x2] []
  = (fst (Lapack.__call__ getrf_only
            (Lapack.__init__ (fun _ => None) "getrf" None true)
            [VArray (mk_ndarray [2; 2] complex64 false)] []),
     Raise TypeError "'str' object is not callable").
Proof.
  exact (proj2 (proj1 (failed_resolution_is_permanent getrf_only getrf_only
                         (Lapack.__init__ (fun _ => None) "getrf" None true)
                         (Blas.__init__ "getrf")
                         [VArray (mk_ndarray [2; 2] complex64 false)] []
                         complex64 eq_refl) eq_refl eq_refl)
           getrf_only [VArray float32_2x2] []).
Defined.

(** X23: [blas] chooses as [lapack] does with [turbo] on: for every dtype the
    two build the same routine name, [s] for float32, [d] for float64, [c]
    for complex64 and [z] for anything else, complex or not; and over the
    same module the first call of an unbound resolver binds the same routine
    and returns the same result. *)
Theorem blas_agrees_with_lapack_turbo
    (module : string -> option Lapack.routine) (name : string)
    (args : list value) (kw : kwargs) (dtype : dtype) (r : Lapack.routine)
    (Hdtype : Lapack.first_dtype args kw = Ok dtype)
    (Hr : module (Blas.routine_name (Blas.__init__ name) dtype) = Some r) :
  Blas.routine_name (Blas.__init__ name) dtype
  = Lapack.routine_name (Lapack.mk_lapack name true Lapack.Unbound) dtype
  /\ Blas.routine_name (Blas.__init__ name) dtype
     = (if dtype_eqb dtype float32 then "s"
        else if dtype_eqb dtype float64 then "d"
        else if dtype_eqb dtype complex64 then "c" else "z") +++ name
  /\ Blas.__call__ module (Blas.__init__ name) args kw
     = (Blas.mk_blas name (Lapack.Routine r), r args kw)
  /\ Lapack.__call__ module (Lapack.mk_lapack name true Lapack.Unbound) args kw
     = (Lapack.mk_lapack name true (Lapack.Routine r), r args kw)
  /\ forall other args' kw',
       Blas.__call__ other (Blas.mk_blas name (Lapack.Routine r)) args' kw'
       = (Blas.mk_blas name (Lapack.Routine r), r args' kw').
Proof.
  assert (Hsame : Blas.routine_name (Blas.__init__ name) dtype
                  = Lapack.routine_name
                      (Lapack.mk_lapack name true Lapack.Unbound) dtype).
  { unfold Blas.routine_name, Lapack.routine_name.
    cbn [Blas.function Blas.__init__ Lapack.function Lapack.turbo negb].
    now rewrite andb_true_r, orb_false_r. }
  split; [exact Hsame |]. split.
  - unfold Blas.routine_name. cbn [Blas.function Blas.__init__].
    destruct (dtype_eqb dtype float32); [reflexivity |].
    destruct (dtype_eqb dtype float64); [reflexivity |].
    destruct (dtype_eqb dtype complex64); reflexivity.
  - split; [| split; [| reflexivity]].
    + unfold Blas.__call__. cbn [Blas.f Blas.__init__].
      rewrite Hdtype. cbn [Blas.__init__] in Hr. rewrite Hr. reflexivity.
    + unfold Lapack.__call__. cbn [Lapack.f]. rewrite Hdtype, <- Hsame, Hr.
      reflexivity.
Qed.

Lemma blas_agrees_with_lapack_turbo_witness :
  Blas.__call__ getrf_only (Blas.__init__ "getrf")
    [VArray (mk_ndarray [2; 2] float32 false)] []
  = (Blas.mk_blas "getrf" (Lapack.Routine (fun _ _ => Ok (VStr "sgetrf"))),
     Ok (VStr "sgetrf")).
Proof.
  exact (proj1 (proj2 (proj2 (blas_agrees_with_lapack_turbo getrf_only "getrf"
                  [VArray (mk_ndarray [2; 2] float32 false)] [] float32
                  (fun _ _ => Ok (VStr "sgetrf")) eq_refl eq_refl)))).
Defined.

(** * A call that goes through *)

Lemma accounting_single_array
    (is64 : bool) (u : usage) (square : bool) (f : pyfun) (a : ndarray)
    (n cost : Z) (t : target) :
  parameters f <> [] ->
  arg_process is64 (VArray a) square = Ok (n, t) ->
  memory (a_shape a)
    (match t with
     | NoConversion => Some (a_dtype a)
     | ConvertTo d => Some d
     | NoClassification => None
     end) (Some u) = Ok cost ->
  accounting is64 [("X", u)] square f [VArray a] []
  = Ok (mk_accounted [VArray a] [("X", VBool true)] [false]
          [match t with NoConversion => NoClassification | _ => t end;
           NoClassification] (n + cost)).
Proof.
  intros Hparams Hclass Hcost. unfold accounting.
  rewrite (check_arguments_single f a Hparams). cbn [bind].
  unfold resolve_flags.
  cbn [positional_booleans is_bool bind check_names].
  unfold update_X, x_branch. change (memory_length [("X", u)] - 1) with 0.
  cbn [Z.eqb orb map_values map kw_set].
  cbn [memory_keys map fst leftovers kw_get String.eqb Ascii.eqb Bool.eqb].
  cbn [classify_args bind]. rewrite Hclass. cbn [bind].
  destruct t as [| | d]; cbn [bind classify_kwargs to_array arg_process];
    cbn [operation_cost kw_get String.eqb Ascii.eqb Bool.eqb eq_True bind];
    rewrite Hcost, ?Z.add_0_r; reflexivity.
Qed.

(** X24: a call [f(X)] with one array that needs no conversion, under one
    memory key [X], goes through to [f]: when the pattern's estimate is not
    positive without any sampling, and otherwise after one sampling that
    leaves at least the estimate free.  [f] is called with the array alone
    and no keyword, and its outcome is the call's, a [MemoryError] of [f]
    being raised again with the general message. *)
Theorem wrapper_delegates_unconverted_array
    (is64 : bool) (available : nat -> Z) (u : usage) (square : bool)
    (f : pyfun) (a : ndarray) (n cost : Z) (t : target) (w : nat)
    (Hparams : parameters f <> [])
    (Hclass : arg_process is64 (VArray a) square = Ok (n, t))
    (Hkeep : forall d, t <> ConvertTo d)
    (Hcost : memory (a_shape a)
               (match t with
                | NoConversion => Some (a_dtype a)
                | ConvertTo d => Some d
                | NoClassification => None
                end) (Some u) = Ok cost) :
  (n + cost <= 0 ->
   wrapper is64 available [("X", u)] square f [VArray a] [] w
   = (delegate f [VArray a] [], w))
  /\ (forall free,
        0 < n + cost -> free_MB (available w) = Ok free -> n + cost <= free ->
        wrapper is64 available [("X", u)] square f [VArray a] [] w
        = (delegate f [VArray a] [], S w))
  /\ (forall free,
        0 < n + cost -> free_MB (available w) = Ok free -> free < n + cost ->
        wrapper is64 available [("X", u)] square f [VArray a] [] w
        = (Raise MemoryError (shortfall_msg (n + cost) free), S w)).
Proof.
  pose proof (accounting_single_array is64 u square f a n cost t
                Hparams Hclass Hcost) as Hacc.
  assert (Hprep : prepare
                    (mk_accounted [VArray a] [("X", VBool true)] [false]
                       [match t with NoConversion => NoClassification | _ => t end;
                        NoClassification] (n + cost))
                  = Ok ([VArray a], [])).
  { destruct t as [| | d]; [reflexivity | reflexivity |].
    now destruct (Hkeep d). }
  split; [| split].
  - intros Hle. unfold wrapper, admission. rewrite Hacc. cbn [acc_need].
    apply Z.ltb_ge in Hle. rewrite Hle, Hprep. reflexivity.
  - intros free Hpos Hfree Hle. unfold wrapper, admission. rewrite Hacc.
    cbn [acc_need]. apply Z.ltb_lt in Hpos. rewrite Hpos, Hfree. cbn [bind].
    apply Z.ltb_ge in Hle. rewrite Hle, Hprep. reflexivity.
  - intros free Hpos Hfree Hlt. unfold wrapper, admission. rewrite Hacc.
    cbn [acc_need]. apply Z.ltb_lt in Hpos. rewrite Hpos, Hfree. cbn [bind].
    apply Z.ltb_lt in Hlt. rewrite Hlt. reflexivity.
Qed.

Lemma wrapper_delegates_unconverted_array_witness :
  wrapper true (reports (50 * MB)) [("X", usage_full)] false f_X
    [VArray (mk_ndarray [1000; 1000] float32 false)] [] 0
  = (delegate f_X [VArray (mk_ndarray [1000; 1000] float32 false)] [], 1%nat).
Proof.
  apply (proj1 (proj2 (wrapper_delegates_unconverted_array true
                         (reports (50 * MB)) usage_full false f_X
                         (mk_ndarray [1000; 1000] float32 false)
                         0 7 NoConversion 0
                         ltac:(discriminate) eq_refl
                         ltac:(discriminate) eq_refl)) 47);
    [reflexivity | vm_compute; reflexivity | lia].
Defined.

(** * A keyword array that needs no conversion *)

Lemma convert_kwargs_rejects_False
    (is64 square : bool) (items kw' : kwargs) (dts : list target)
    (k : string) (x : value) (n : Z) :
  Forall2 (fun e t => exists n0, arg_process is64 (snd e) square = Ok (n0, t))
    items dts ->
  convert_kwargs items dts = Ok kw' ->
  kw_get items k = Some x ->
  arg_process is64 x square = Ok (n, NoConversion) ->
  False.
Proof.
  intros HF. revert kw'. induction HF as [| [i y] t0 rest dts' [n0 Hy] HF IH];
    intros kw' Hc Hk Hx; cbn [kw_get convert_kwargs] in *.
  - discriminate Hk.
  - cbn [snd] in Hy. destruct t0 as [| | d0].
    + discriminate Hc.
    + bind_inv_as Hc r E. destruct (String.eqb k i).
      * injection Hk as ->. rewrite Hx in Hy. discriminate Hy.
      * exact (IH _ eq_refl Hk Hx).
    + destruct y; try discriminate Hc; bind_inv_as Hc r E;
        (destruct (String.eqb k i);
         [ injection Hk as <-; rewrite Hx in Hy; discriminate Hy
         | exact (IH _ eq_refl Hk Hx) ]).
Qed.

(** X25: a call that passes, under a key other than [X], an array for which
    [arg_process] answers [False] (an array of more than one dimension in
    float32, [maxFloat] or a complex dtype, or an [np.matrix] of several
    rows in such a dtype) never reaches [f]: [False] is not [None], so line
    232 calls [astype(False)] on it and the call ends in an exception. *)
Theorem keyword_array_without_conversion_fails
    (is64 : bool) (available : nat -> Z) (memcheck : list (string * usage))
    (square : bool) (f : pyfun) (args : list value) (kw : kwargs)
    (a : accounted) (k : string) (x : value) (n : Z) (w : nat)
    (Hacc : accounting is64 memcheck square f args kw = Ok a)
    (Hk : k <> "X")
    (Hget : kw_get kw k = Some x)
    (Hclass : arg_process is64 (to_array x) square = Ok (n, NoConversion)) :
  (forall args' kw', prepare a <> Ok (args', kw'))
  /\ exists c m,
       fst (wrapper is64 available memcheck square f args kw w) = Raise c m.
Proof.
  assert (Hnot : forall args' kw', prepare a <> Ok (args', kw')).
  { intros args' kw' Hprep.
    destruct (accounting_inv _ _ _ _ _ _ _ Hacc)
      as (X & kw1 & yes1 & dup & y & need1 & dts1 & Xd & kwD & need2 & dts2
          & cost & HX & Hpos & Hnames & Hargs & Hkw & Hcost & ->).
    destruct (prepare_inv _ _ _ Hprep) as (d & kwE & Hca & Hck & Hdup & ->).
    cbn [acc_args acc_new_dtypes acc_kwargs acc_duplicate] in *.
    destruct (no_shorthand_when_delegated _ _ _ _ _ _ _ _ HX Hpos Hdup)
      as [-> ->].
    destruct (convert_args_ok _ _ _ _ _
                (classify_args_length _ _ _ _ _ _ _ _ _ Hargs) Hca)
      as (_ & -> & _).
    pose proof (classify_kwargs_spec _ _ _ _ _ _ _ Hkw) as HF.
    apply classify_kwargs_values in Hkw. subst kwD.
    apply (convert_kwargs_rejects_False is64 square _ _ _ k (to_array x) n
             HF Hck); [| exact Hclass].
    rewrite kw_get_map_values, kw_get_leftovers.
    assert (Hx : is_bool x = false) by (destruct x; try reflexivity; discriminate Hclass).
    assert (HU : kw_get (update_X memcheck kw y) k = Some x).
    { unfold update_X. destruct (x_branch memcheck y);
        rewrite kw_get_set_other by congruence;
        rewrite ?kw_get_map_values, Hget; [| reflexivity].
      cbn [option_map]. unfold set_False. now rewrite Hx. }
    now rewrite HU. }
  split; [exact Hnot |].
  unfold wrapper. rewrite Hacc.
  destruct (admission available (acc_need a) w) as [[u | c m] w'];
    cbn [fst]; [| now eexists _, _].
  destruct (prepare a) as [[args' kw'] | c m] eqn:Hp.
  - now destruct (Hnot args' kw').
  - cbn [bind]. now eexists _, _.
Qed.

Lemma keyword_array_without_conversion_fails_witness :
  exists c m,
    fst (wrapper true (reports 0) memcheck_X_full false (f_X_k first_argument)
           [VArray float32_2x2] [("k", VArray float32_2x2)] 0) = Raise c m.
Proof.
  exact (proj2 (keyword_array_without_conversion_fails true (reports 0)
                  memcheck_X_full false (f_X_k first_argument)
                  [VArray float32_2x2] [("k", VArray float32_2x2)]
                  (mk_accounted [VArray float32_2x2]
                     [("k", VArray float32_2x2); ("X", VBool true)] [false]
                     [NoClassification; NoConversion; NoClassification] 0)
                  "k" (VArray float32_2x2) 0 0
                  eq_refl ltac:(discriminate) eq_refl eq_refl)).
Defined.
